(** * ParamparaSmritiAI backend: request handlers of [backend/server.py]

    A shallow embedding of the HTTP handlers of the cultural-heritage backend
    and the properties of its request-orchestration layer.

    Modelling conventions.
    - Python dictionaries and stored records are finite maps from field names
      to dynamically typed values ([gmap string value]).
    - A handler is a computation in a state-and-exception monad over the
      [World]: the four collections of the document store in insertion order,
      the upload directory, and the log of messages sent to the LLM provider.
      A raised exception does not roll the state back, as in Python.
    - Everything outside the repository is a field of the environment [Env]:
      the API credential, the embedding model (absent when its import failed),
      the provider's replies, [json.loads], the store's regular-expression
      engine and the text of its errors, the file system's verdict on a path,
      [uuid4] and the clock.
    - A handler's return value is the body of a 200 response when the
      framework can encode it as JSON, and a 500 when it cannot (a value
      holding an [ObjectId], or a float that is not finite); an
      [HTTPException] becomes a response with its status; any other uncaught
      exception is a 500.
    - A string is the UTF-8 encoding of the Python [str]: slicing and
      lengths count code points, not bytes.  Integers are unbounded ([Z]);
      decimal literals of the source ([0.7], [0.8]) are kept as rationals,
      and the floats that are not finite are values of their own. *)

From stdpp Require Import gmap strings list pretty.
From Stdlib Require Import Ascii ZArith QArith.

#[local] Set Warnings "-register-all".
#[local] Open Scope Z_scope.

(** ** Dynamically typed values *)

(** The floats that are not finite: [json.loads] yields them for
    [Infinity], [-Infinity], [NaN] and for literals such as [1e400]. *)
Inductive nonfinite :=
| PosInf
| NegInf
| NaN.

Inductive value :=
| VNone
| VBool (b : bool)
| VInt (z : Z)
| VFloat (q : Q)                     (* a finite float *)
| VStr (s : string)
| VTime (t : Z)                      (* datetime, UTC *)
| VOid (n : nat)                     (* the store's ObjectId *)
| VList (l : list value)
| VDict (d : gmap string value)
| VNonFinite (f : nonfinite).        (* inf, -inf, nan *)

Abbreviation doc := (gmap string value).

(** A dict display [{k1: v1, ...}] of the source. *)
Definition dict (kvs : list (string * value)) : doc := list_to_map kvs.

(** ** Exceptions *)

Inductive exn :=
| HTTPException (status_code : Z) (detail : string)
| PyError (cls : string) (msg : string).

(** [str(e)]: an HTTP exception prints as its status and detail. *)
Definition str_exn (e : exn) : string :=
  match e with
  | HTTPException c d => pretty c +:+ ": " +:+ d
  | PyError _ m => m
  end.

(** ** Request bodies *)

Record UploadFile := { filename : string; file_bytes : string }.

Module RestoreRequest.
Record t := { text : string; language : string; context : option string }.
End RestoreRequest.

Module TranslateRequest.
Record t := { text : string; source_language : string; target_language : string }.
End TranslateRequest.

Module StoryRequest.
Record t := {
  document_id : string;
  story_type : string;                (* summary, interactive, quiz *)
  target_language : string            (* default "english" *)
}.
End StoryRequest.

Module SearchRequest.
Record t := {
  query : string;
  search_type : string;               (* semantic, keyword; default "semantic" *)
  language : option string;
  limit : Z                           (* default 10 *)
}.
End SearchRequest.

(** ** Models *)

Definition opt_str (o : option string) : value :=
  match o with Some s => VStr s | None => VNone end.

Definition opt_floats (o : option (list Q)) : value :=
  match o with Some l => VList (VFloat <$> l) | None => VNone end.

Module BaseDocument.
Record t := { id : string; created_at : Z; updated_at : Z }.
Definition fields (b : t) : list (string * value) :=
  [("id", VStr (id b)); ("created_at", VTime (created_at b));
   ("updated_at", VTime (updated_at b))].
End BaseDocument.

Module CulturalDocument.
Record t := {
  base : BaseDocument.t;
  title : string;
  description : option string;
  script_type : option string;
  language : string;
  original_text : option string;
  restored_text : option string;
  translation : gmap string string;
  region : option string;
  time_period : option string;
  restoration_confidence : option Q;
  embeddings : option (list Q);
  tags : list string
}.
Definition id (d : t) : string := BaseDocument.id (base d).
Definition set_embeddings (e : list Q) (d : t) : t :=
  {| base := base d; title := title d; description := description d;
     script_type := script_type d; language := language d;
     original_text := original_text d; restored_text := restored_text d;
     translation := translation d; region := region d;
     time_period := time_period d;
     restoration_confidence := restoration_confidence d;
     embeddings := Some e; tags := tags d |}.
(** [.dict()] *)
Definition dict (d : t) : doc :=
  list_to_map
    (BaseDocument.fields (base d) ++
     [("title", VStr (title d));
      ("description", opt_str (description d));
      ("script_type", opt_str (script_type d));
      ("language", VStr (language d));
      ("original_text", opt_str (original_text d));
      ("restored_text", opt_str (restored_text d));
      ("translation", VDict (VStr <$> translation d));
      ("region", opt_str (region d));
      ("time_period", opt_str (time_period d));
      ("restoration_confidence",
        match restoration_confidence d with Some q => VFloat q | None => VNone end);
      ("embeddings", opt_floats (embeddings d));
      ("tags", VList (VStr <$> tags d))]).
End CulturalDocument.

Module FolkSong.
Record t := {
  base : BaseDocument.t;
  title : string;
  performer : option string;
  region : string;
  language : string;
  transcription : option string;
  audio_path : option string;
  lyrics : option string;
  cultural_significance : option string;
  embeddings : option (list Q)
}.
Definition id (d : t) : string := BaseDocument.id (base d).
Definition set_embeddings (e : list Q) (d : t) : t :=
  {| base := base d; title := title d; performer := performer d;
     region := region d; language := language d;
     transcription := transcription d; audio_path := audio_path d;
     lyrics := lyrics d; cultural_significance := cultural_significance d;
     embeddings := Some e |}.
Definition dict (d : t) : doc :=
  list_to_map
    (BaseDocument.fields (base d) ++
     [("title", VStr (title d));
      ("performer", opt_str (performer d));
      ("region", VStr (region d));
      ("language", VStr (language d));
      ("transcription", opt_str (transcription d));
      ("audio_path", opt_str (audio_path d));
      ("lyrics", opt_str (lyrics d));
      ("cultural_significance", opt_str (cultural_significance d));
      ("embeddings", opt_floats (embeddings d))]).
End FolkSong.

Module Story.
Record t := {
  base : BaseDocument.t;
  title : string;
  content : string;
  source_document_id : option string;
  story_type : string;
  language : string;
  audio_narration : option string;
  quiz_questions : option (list doc)
}.
Definition id (d : t) : string := BaseDocument.id (base d).
Definition dict (d : t) : doc :=
  list_to_map
    (BaseDocument.fields (base d) ++
     [("title", VStr (title d));
      ("content", VStr (content d));
      ("source_document_id", opt_str (source_document_id d));
      ("story_type", VStr (story_type d));
      ("language", VStr (language d));
      ("audio_narration", opt_str (audio_narration d));
      ("quiz_questions",
        match quiz_questions d with Some l => VList (VDict <$> l) | None => VNone end)]).
End Story.

Module UserProgress.
Record t := {
  base : BaseDocument.t;
  user_id : string;
  badges : list string;
  points : Z;
  documents_explored : list string;
  translations_contributed : Z;
  stories_completed : Z
}.
Definition dict (d : t) : doc :=
  list_to_map
    (BaseDocument.fields (base d) ++
     [("user_id", VStr (user_id d));
      ("badges", VList (VStr <$> badges d));
      ("points", VInt (points d));
      ("documents_explored", VList (VStr <$> documents_explored d));
      ("translations_contributed", VInt (translations_contributed d));
      ("stories_completed", VInt (stories_completed d))]).
End UserProgress.

(** ** The world and the environment *)

Record World := {
  cultural_documents : list doc;
  folk_songs : list doc;
  stories : list doc;
  user_progress : list doc;
  tmp_files : gmap string string;             (* path -> content *)
  llm_log : list (string * string * string);  (* provider, model, prompt *)
  uuid_count : nat;
  clock_count : nat;
  oid_count : nat
}.

Record Env := {
  EMERGENT_LLM_KEY : option string;
  (* [None] when the import of the sentence transformer failed *)
  embedding_model : option (string -> list Q);
  (* reply to the n-th message: provider, model, prompt *)
  provider_reply : nat -> string -> string -> string -> exn + string;
  (* [None] when [json.loads] raises; the parsed value otherwise, floats
     that are not finite included *)
  json_loads : string -> option value;
  (* pattern, options: [None] when the store rejects the pattern,
     otherwise the unanchored search predicate on subject strings *)
  regex_compile : string -> string -> option (string -> bool);
  (* pattern, options: [str()] of the driver's exception for a pattern the
     store rejects *)
  regex_error : string -> string -> string;
  (* may a file be created at this path *)
  fs_creatable : string -> bool;
  gettempdir : string;
  uuid_of : nat -> string;
  utc_of : nat -> Z;
  (* [str()] of floats, datetimes, object ids and containers *)
  py_repr : value -> string
}.

Definition empty_world : World :=
  {| cultural_documents := []; folk_songs := []; stories := [];
     user_progress := []; tmp_files := ∅; llm_log := [];
     uuid_count := 0; clock_count := 0; oid_count := 0 |}.

(** ** The state-and-exception monad *)

Inductive outcome (A : Type) :=
| Return (a : A)
| Raise (e : exn).
Arguments Return {A} a.
Arguments Raise {A} e.

Definition M (A : Type) : Type := World -> outcome A * World.

Definition ret {A} (a : A) : M A := fun w => (Return a, w).

Definition raise {A} (e : exn) : M A := fun w => (Raise e, w).

Definition bind {A B} (m : M A) (k : A -> M B) : M B :=
  fun w => match m w with
           | (Return a, w') => k a w'
           | (Raise e, w') => (Raise e, w')
           end.

(** [try: m except Exception as e: h e] *)
Definition try_except {A} (m : M A) (h : exn -> M A) : M A :=
  fun w => match m w with
           | (Return a, w') => (Return a, w')
           | (Raise e, w') => h e w'
           end.

Definition gets {A} (f : World -> A) : M A := fun w => (Return (f w), w).

Definition modify (f : World -> World) : M unit := fun w => (Return tt, f w).

Notation "x <- m ;; k" := (bind m (fun x => k))
  (at level 100, m at next level, right associativity).
Notation "m ;;; k" := (bind m (fun _ => k))
  (at level 100, right associativity).

(** ** HTTP responses *)

Inductive http_response :=
| Response (status : Z) (body : value).

Definition status_of (r : http_response) : Z :=
  match r with Response s _ => s end.

Definition body_of (r : http_response) : value :=
  match r with Response _ b => b end.

(** What the framework can encode as JSON: [jsonable_encoder] raises on an
    [ObjectId], and the JSON response is rendered with [allow_nan=False],
    which raises on a float that is not finite.  Datetimes are encoded as
    text. *)
Fixpoint jsonable (v : value) : bool :=
  match v with
  | VOid _ | VNonFinite _ => false
  | VList l => forallb jsonable l
  | VDict d => map_fold (fun _ x b => jsonable x && b) true d
  | _ => true
  end.

(** The answer to an exception nobody handles. *)
Definition internal_server_error : http_response :=
  Response 500 (VStr "Internal Server Error").

(** The answer to a value a handler returned: encoding it may fail. *)
Definition respond (v : value) : http_response :=
  if jsonable v then Response 200 v else internal_server_error.

(** The framework around a handler. *)
Definition serve (h : M value) (w : World) : http_response * World :=
  match h w with
  | (Return v, w') => (respond v, w')
  | (Raise (HTTPException c d), w') =>
      (Response c (VDict (dict [("detail", VStr d)])), w')
  | (Raise (PyError _ _), w') => (internal_server_error, w')
  end.

(** ** Python helpers *)

Definition dq : string := String "034"%char EmptyString.
Definition nl : string := String "010"%char EmptyString.

Fixpoint join_lines (ls : list string) : string :=
  match ls with
  | [] => EmptyString
  | [l] => l
  | l :: ls' => l +:+ nl +:+ join_lines ls'
  end.

(** [x or default] on an optional string: [None] and the empty string are
    both falsy. *)
Definition or_default (x : option string) (default : string) : string :=
  match x with
  | Some (String a s) => String a s
  | _ => default
  end.

Definition is_lower (c : ascii) : bool :=
  let n := nat_of_ascii c in (97 <=? n)%nat && (n <=? 122)%nat.

Definition is_upper (c : ascii) : bool :=
  let n := nat_of_ascii c in (65 <=? n)%nat && (n <=? 90)%nat.

Definition to_lower (c : ascii) : ascii :=
  if is_upper c then ascii_of_nat (nat_of_ascii c + 32) else c.

Definition to_upper (c : ascii) : ascii :=
  if is_lower c then ascii_of_nat (nat_of_ascii c - 32) else c.

(** [str.title()]: a cased character is upper case after an uncased one and
    lower case after a cased one. *)
Fixpoint title_from (prev_cased : bool) (s : string) : string :=
  match s with
  | EmptyString => EmptyString
  | String c s' =>
      let cased := is_lower c || is_upper c in
      String (if prev_cased then to_lower c else to_upper c) (title_from cased s')
  end.

Definition str_title (s : string) : string := title_from false s.

(** A byte [10xxxxxx] continues the code point begun before it. *)
Definition is_continuation (c : ascii) : bool :=
  let n := nat_of_ascii c in (128 <=? n)%nat && (n <? 192)%nat.

(** [len(s)]: the number of code points. *)
Fixpoint str_len (s : string) : nat :=
  match s with
  | EmptyString => O
  | String c s' => if is_continuation c then str_len s' else S (str_len s')
  end.

(** [s[:n]]: the first [n] code points, each with its continuation bytes. *)
Fixpoint str_take (n : nat) (s : string) : string :=
  match s with
  | EmptyString => EmptyString
  | String c s' =>
      if is_continuation c then String c (str_take n s')
      else
        match n with
        | O => EmptyString
        | S n' => String c (str_take n' s')
        end
  end.

(** ** Clock, identifiers, files *)

Section Handlers.

Context (env : Env).

Definition uuid4 : M string := fun w =>
  (Return (uuid_of env (uuid_count w)),
   {| cultural_documents := cultural_documents w; folk_songs := folk_songs w;
      stories := stories w; user_progress := user_progress w;
      tmp_files := tmp_files w; llm_log := llm_log w;
      uuid_count := S (uuid_count w); clock_count := clock_count w;
      oid_count := oid_count w |}).

Definition utcnow : M Z := fun w =>
  (Return (utc_of env (clock_count w)),
   {| cultural_documents := cultural_documents w; folk_songs := folk_songs w;
      stories := stories w; user_progress := user_progress w;
      tmp_files := tmp_files w; llm_log := llm_log w;
      uuid_count := uuid_count w; clock_count := S (clock_count w);
      oid_count := oid_count w |}).

Definition set_tmp_files (fs : gmap string string) (w : World) : World :=
  {| cultural_documents := cultural_documents w; folk_songs := folk_songs w;
     stories := stories w; user_progress := user_progress w;
     tmp_files := fs; llm_log := llm_log w;
     uuid_count := uuid_count w; clock_count := clock_count w;
     oid_count := oid_count w |}.

Definition set_llm_log (l : list (string * string * string)) (w : World) : World :=
  {| cultural_documents := cultural_documents w; folk_songs := folk_songs w;
     stories := stories w; user_progress := user_progress w;
     tmp_files := tmp_files w; llm_log := l;
     uuid_count := uuid_count w; clock_count := clock_count w;
     oid_count := oid_count w |}.

(** [str(v)] inside an f-string *)
Definition py_str (v : value) : string :=
  match v with
  | VStr s => s
  | VNone => "None"
  | VBool true => "True"
  | VBool false => "False"
  | VInt z => pretty z
  | _ => py_repr env v
  end.

(** [d[k]] *)
Definition getitem (d : doc) (k : string) : M value :=
  match d !! k with
  | Some v => ret v
  | None => raise (PyError "KeyError" ("'" +:+ k +:+ "'"))
  end.

(** [d.get(k, default)] *)
Definition dict_get (d : doc) (k : string) (default : value) : value :=
  match d !! k with
  | Some v => v
  | None => default
  end.

(** Save uploaded file to temporary location *)
Definition save_upload_file (upload_file : UploadFile) : M string :=
  let temp_dir := gettempdir env +:+ "/parampara_uploads" in
  u <- uuid4 ;;
  let file_path := temp_dir +:+ "/" +:+ u +:+ "_" +:+ filename upload_file in
  if fs_creatable env file_path then
    modify (fun w => set_tmp_files (<[file_path := file_bytes upload_file]> (tmp_files w)) w) ;;;
    ret file_path
  else raise (PyError "OSError" file_path).

Definition os_remove (path : string) : M unit :=
  fs <- gets tmp_files ;;
  match fs !! path with
  | Some _ => modify (fun w => set_tmp_files (delete path (tmp_files w)) w)
  | None => raise (PyError "FileNotFoundError" path)
  end.

(** [embedding_model.encode(text).tolist()] *)
Definition encode (text : string) : M (list Q) :=
  match embedding_model env with
  | Some model => ret (model text)
  | None => raise (PyError "AttributeError" "'NoneType' object has no attribute 'encode'")
  end.

(** ** The LLM client *)

Record LlmChat := {
  api_key : string;
  session_id : string;
  system_message : string;
  chat_provider : string;
  chat_model : string
}.

(** Initialize LLM client with universal key *)
Definition get_llm_client (provider model : string) : M LlmChat :=
  match or_default (EMERGENT_LLM_KEY env) EmptyString with
  | EmptyString => raise (HTTPException 500 "EMERGENT_LLM_KEY not found")
  | key =>
      sid <- uuid4 ;;
      ret {| api_key := key; session_id := sid;
             system_message := "You are an expert in Indian cultural heritage, ancient texts, and linguistic restoration.";
             chat_provider := provider; chat_model := model |}
  end.

(** [chat.send_message(UserMessage(text=prompt))]: the one call that reaches
    the provider.  The message is logged before the reply is known. *)
Definition send_message (chat : LlmChat) (prompt : string) : M string :=
  n <- gets (fun w => length (llm_log w)) ;;
  modify (fun w => set_llm_log (llm_log w ++ [(chat_provider chat, chat_model chat, prompt)]) w) ;;;
  match provider_reply env n (chat_provider chat) (chat_model chat) prompt with
  | inr text => ret text
  | inl e => raise e
  end.

(** ** The document store *)

Inductive collection :=
| db_cultural_documents
| db_folk_songs
| db_stories
| db_user_progress.

Definition coll_get (c : collection) (w : World) : list doc :=
  match c with
  | db_cultural_documents => cultural_documents w
  | db_folk_songs => folk_songs w
  | db_stories => stories w
  | db_user_progress => user_progress w
  end.

Definition coll_set (c : collection) (l : list doc) (w : World) : World :=
  {| cultural_documents := match c with db_cultural_documents => l | _ => cultural_documents w end;
     folk_songs := match c with db_folk_songs => l | _ => folk_songs w end;
     stories := match c with db_stories => l | _ => stories w end;
     user_progress := match c with db_user_progress => l | _ => user_progress w end;
     tmp_files := tmp_files w; llm_log := llm_log w;
     uuid_count := uuid_count w; clock_count := clock_count w;
     oid_count := oid_count w |}.

(** The store stamps a record that has no [_id] with a fresh object id. *)
Definition with_object_id (d : doc) : M doc := fun w =>
  match d !! "_id" with
  | Some _ => (Return d, w)
  | None =>
      (Return (<["_id" := VOid (oid_count w)]> d),
       {| cultural_documents := cultural_documents w; folk_songs := folk_songs w;
          stories := stories w; user_progress := user_progress w;
          tmp_files := tmp_files w; llm_log := llm_log w;
          uuid_count := uuid_count w; clock_count := clock_count w;
          oid_count := S (oid_count w) |})
  end.

Definition insert_one (c : collection) (d : doc) : M unit :=
  d' <- with_object_id d ;;
  modify (fun w => coll_set c (coll_get c w ++ [d']) w).

(** Query filters of the handlers: [{}], [{k: s}], [{k: {"$regex": p,
    "$options": o}}] and an [$or] of such one-field filters.  The fields
    queried hold strings or null in every record the handlers write: matching
    inside arrays is not modelled. *)
Inductive cond :=
| CEq (s : string)
| CRegex (pattern options : string).

Inductive mquery :=
| QAll
| QField (k : string) (c : cond)
| QOr (alts : list (string * cond)).

Definition on_string (p : string -> bool) (o : option value) : bool :=
  match o with
  | Some (VStr s) => p s
  | _ => false
  end.

Definition compile_cond (c : cond) : option (option value -> bool) :=
  match c with
  | CEq s => Some (on_string (String.eqb s))
  | CRegex p o => on_string <$> regex_compile env p o
  end.

Definition compile_field (kc : string * cond) : option (doc -> bool) :=
  f ← compile_cond kc.2; Some (fun d : doc => f (d !! kc.1)).

(** [None]: the store rejects the query. *)
Definition compile_query (q : mquery) : option (doc -> bool) :=
  match q with
  | QAll => Some (fun _ => true)
  | QField k c => compile_field (k, c)
  | QOr alts => fs ← mapM compile_field alts; Some (fun d => existsb (fun f => f d) fs)
  end.

Record cursor := { cur_coll : collection; cur_query : mquery; cur_limit : Z }.

Definition find (c : collection) (q : mquery) : cursor :=
  {| cur_coll := c; cur_query := q; cur_limit := 0 |}.

Definition cursor_limit (n : Z) (cur : cursor) : cursor :=
  {| cur_coll := cur_coll cur; cur_query := cur_query cur; cur_limit := n |}.

(** The cursor's limit: [0] is no limit, a negative limit counts as its
    absolute value. *)
Definition apply_limit {A} (n : Z) (l : list A) : list A :=
  if n =? 0 then l else take (Z.abs_nat n) l.

(** [to_list(length)]: [None] is no cap. *)
Definition apply_length {A} (len : option nat) (l : list A) : list A :=
  match len with
  | Some n => take n l
  | None => l
  end.

(** The driver's message for the first pattern of the query that the store
    rejects. *)
Definition cond_error (c : cond) : option string :=
  match c with
  | CEq _ => None
  | CRegex p o =>
      match regex_compile env p o with
      | Some _ => None
      | None => Some (regex_error env p o)
      end
  end.

Definition query_error (q : mquery) : string :=
  match q with
  | QAll => EmptyString
  | QField _ c => default EmptyString (cond_error c)
  | QOr alts => default EmptyString (head (omap (fun kc => cond_error kc.2) alts))
  end.

Definition operation_failure {A} (q : mquery) : M A :=
  raise (PyError "OperationFailure" (query_error q)).

Definition to_list (len : option nat) (cur : cursor) : M (list doc) :=
  match compile_query (cur_query cur) with
  | Some p =>
      l <- gets (coll_get (cur_coll cur)) ;;
      ret (apply_length len (apply_limit (cur_limit cur) (filter (fun d => p d = true) l)))
  | None => operation_failure (cur_query cur)
  end.

Definition first_match (p : doc -> bool) (l : list doc) : option doc :=
  head (filter (fun d => p d = true) l).

Definition find_one (c : collection) (q : mquery) : M (option doc) :=
  match compile_query q with
  | Some p => l <- gets (coll_get c) ;; ret (first_match p l)
  | None => operation_failure q
  end.

(** Update operators of [award_badge]. *)
Record update_spec := {
  addToSet : list (string * string);
  inc : list (string * Z)
}.

Definition is_str (s : string) (v : value) : bool :=
  match v with VStr s' => String.eqb s s' | _ => false end.

(** [$addToSet]: append unless present; [None] on a field that is no array. *)
Definition apply_addToSet (d : option doc) (kv : string * string) : option doc :=
  d ← d;
  match d !! kv.1 with
  | None => Some (<[kv.1 := VList [VStr kv.2]]> d)
  | Some (VList l) =>
      Some (if existsb (is_str kv.2) l then d else <[kv.1 := VList (l ++ [VStr kv.2])]> d)
  | Some _ => None
  end.

(** [$inc]: add to a number, create a missing field; [None] otherwise.  A
    float that is not finite stays what it is. *)
Definition apply_inc (d : option doc) (kn : string * Z) : option doc :=
  d ← d;
  match d !! kn.1 with
  | None => Some (<[kn.1 := VInt kn.2]> d)
  | Some (VInt z) => Some (<[kn.1 := VInt (z + kn.2)]> d)
  | Some (VFloat q) => Some (<[kn.1 := VFloat (q + inject_Z kn.2)]> d)
  | Some (VNonFinite f) => Some (<[kn.1 := VNonFinite f]> d)
  | Some _ => None
  end.

Definition apply_update (u : update_spec) (d : doc) : option doc :=
  foldl apply_inc (foldl apply_addToSet (Some d) (addToSet u)) (inc u).

Inductive update_result :=
| Updated (l : list doc)
| NoMatch
| WriteError.

(** Update the first record that matches. *)
Fixpoint update_first (p : doc -> bool) (u : update_spec) (l : list doc) : update_result :=
  match l with
  | [] => NoMatch
  | d :: l' =>
      if p d then
        match apply_update u d with
        | Some d' => Updated (d' :: l')
        | None => WriteError
        end
      else
        match update_first p u l' with
        | Updated l'' => Updated (d :: l'')
        | r => r
        end
  end.

(** The record an upsert starts from: the equality fields of the filter. *)
Definition upsert_seed (q : mquery) : doc :=
  match q with
  | QField k (CEq s) => {[ k := VStr s ]}
  | _ => ∅
  end.

Definition write_error {A} : M A :=
  raise (PyError "WriteError" "Cannot apply update operator to the stored value").

(** [update_one(filter, update, upsert=True)] *)
Definition update_one_upsert (c : collection) (q : mquery) (u : update_spec) : M unit :=
  match compile_query q with
  | None => operation_failure q
  | Some p =>
      l <- gets (coll_get c) ;;
      match update_first p u l with
      | Updated l' => modify (coll_set c l')
      | WriteError => write_error
      | NoMatch =>
          match apply_update u (upsert_seed q) with
          | Some d => insert_one c d
          | None => write_error
          end
      end
  end.

(** ** Model constructors: the default factories of [BaseDocument] *)

Definition new_base : M BaseDocument.t :=
  i <- uuid4 ;;
  c <- utcnow ;;
  u <- utcnow ;;
  ret {| BaseDocument.id := i; BaseDocument.created_at := c; BaseDocument.updated_at := u |}.

Definition new_CulturalDocument (title script_type language original_text region : string)
    (tags : list string) : M CulturalDocument.t :=
  b <- new_base ;;
  ret {| CulturalDocument.base := b;
         CulturalDocument.title := title;
         CulturalDocument.description := None;
         CulturalDocument.script_type := Some script_type;
         CulturalDocument.language := language;
         CulturalDocument.original_text := Some original_text;
         CulturalDocument.restored_text := None;
         CulturalDocument.translation := ∅;
         CulturalDocument.region := Some region;
         CulturalDocument.time_period := None;
         CulturalDocument.restoration_confidence := None;
         CulturalDocument.embeddings := None;
         CulturalDocument.tags := tags |}.

Definition new_FolkSong (title performer region language transcription audio_path : string)
    : M FolkSong.t :=
  b <- new_base ;;
  ret {| FolkSong.base := b;
         FolkSong.title := title;
         FolkSong.performer := Some performer;
         FolkSong.region := region;
         FolkSong.language := language;
         FolkSong.transcription := Some transcription;
         FolkSong.audio_path := Some audio_path;
         FolkSong.lyrics := None;
         FolkSong.cultural_significance := None;
         FolkSong.embeddings := None |}.

Definition new_Story (title content source_document_id story_type language : string)
    : M Story.t :=
  b <- new_base ;;
  ret {| Story.base := b;
         Story.title := title;
         Story.content := content;
         Story.source_document_id := Some source_document_id;
         Story.story_type := story_type;
         Story.language := language;
         Story.audio_narration := None;
         Story.quiz_questions := None |}.

Definition new_UserProgress (user_id : string) : M UserProgress.t :=
  b <- new_base ;;
  ret {| UserProgress.base := b;
         UserProgress.user_id := user_id;
         UserProgress.badges := [];
         UserProgress.points := 0;
         UserProgress.documents_explored := [];
         UserProgress.translations_contributed := 0;
         UserProgress.stories_completed := 0 |}.

(** ** Prompt templates *)

Definition restoration_prompt (request : RestoreRequest.t) : string :=
  join_lines
    [ EmptyString;
     "        As an expert in " +:+ RestoreRequest.language request +:+ " cultural heritage and ancient texts, please restore this potentially damaged or incomplete text:";
     EmptyString;
     "        Original Text: " +:+ RestoreRequest.text request;
     "        Language: " +:+ RestoreRequest.language request;
     "        Context: " +:+ or_default (RestoreRequest.context request) "Ancient manuscript or inscription";
     EmptyString;
     "        Instructions:";
     "        1. Identify missing or damaged portions";
     "        2. Restore using cultural and linguistic knowledge";
     "        3. Maintain authenticity and historical accuracy";
     "        4. Explain your restoration choices";
     "        5. Provide confidence score (0-1)";
     EmptyString;
     "        Return in JSON format:";
     "        {";
     "            " +:+ dq +:+ "restored_text" +:+ dq +:+ ": " +:+ dq +:+ "complete restored text" +:+ dq +:+ ",";
     "            " +:+ dq +:+ "changes_made" +:+ dq +:+ ": [" +:+ dq +:+ "list of specific changes" +:+ dq +:+ "],";
     "            " +:+ dq +:+ "confidence" +:+ dq +:+ ": 0.85,";
     "            " +:+ dq +:+ "explanation" +:+ dq +:+ ": " +:+ dq +:+ "detailed explanation of restoration process" +:+ dq;
     "        }";
     "        "].

Definition translation_prompt (request : TranslateRequest.t) : string :=
  join_lines
    [ EmptyString;
     "        As an expert translator specializing in Indian languages and cultural contexts, translate this text:";
     EmptyString;
     "        Text: " +:+ TranslateRequest.text request;
     "        From: " +:+ TranslateRequest.source_language request;
     "        To: " +:+ TranslateRequest.target_language request;
     EmptyString;
     "        Instructions:";
     "        1. Maintain cultural nuances and context";
     "        2. Preserve religious/spiritual terminology appropriately";
     "        3. Keep historical references intact";
     "        4. Provide cultural notes if needed";
     EmptyString;
     "        Return in JSON format:";
     "        {";
     "            " +:+ dq +:+ "translated_text" +:+ dq +:+ ": " +:+ dq +:+ "translated content" +:+ dq +:+ ",";
     "            " +:+ dq +:+ "cultural_notes" +:+ dq +:+ ": " +:+ dq +:+ "any important cultural context" +:+ dq +:+ ",";
     "            " +:+ dq +:+ "confidence" +:+ dq +:+ ": 0.9";
     "        }";
     "        "].

Definition summary_prompt (request : StoryRequest.t) (title text language : string) : string :=
  join_lines
    [ EmptyString;
     "            Create an engaging summary of this cultural text in " +:+ StoryRequest.target_language request +:+ ":";
     "            ";
     "            Title: " +:+ title;
     "            Text: " +:+ text;
     "            Language: " +:+ language;
     "            ";
     "            Make it accessible and interesting while preserving cultural authenticity.";
     "            "].

Definition interactive_prompt (title text : string) : string :=
  join_lines
    [ EmptyString;
     "            Create an interactive story experience based on this cultural text:";
     "            ";
     "            Title: " +:+ title;
     "            Text: " +:+ text;
     "            ";
     "            Include:";
     "            1. Narrative sections with choices";
     "            2. Cultural context explanations";
     "            3. Interactive elements for learning";
     "            4. Return as structured JSON with story segments and choices";
     "            "].

Definition quiz_prompt (title text : string) : string :=
  join_lines
    [ EmptyString;
     "            Create educational quiz questions based on this cultural text:";
     "            ";
     "            Title: " +:+ title;
     "            Text: " +:+ text;
     "            ";
     "            Generate 5-10 questions covering:";
     "            1. Cultural significance";
     "            2. Historical context";
     "            3. Language elements";
     "            4. Regional importance";
     "            ";
     "            Return as JSON array with questions, options, and correct answers.";
     "            "].

(** ** Handlers

    [logger.error] in the exception handlers writes to the process log only
    and is left out. *)

Definition root : M value :=
  ret (VDict (dict [("message",
    VStr "Welcome to ParamparaSmritiAI - Preserving India's Cultural Heritage")])).

Definition health_check : M value :=
  now <- utcnow ;;
  ret (VDict (dict
    [("status", VStr "healthy");
     ("timestamp", VTime now);
     ("services", VDict (dict [("mongodb", VStr "connected");
                               ("llm", VStr "ready");
                               ("embeddings", VStr "loaded")]))])).

(** Upload and process document with OCR for Indian scripts *)
Definition upload_document_ocr (file : UploadFile) (script_type language : string) : M value :=
  try_except
    (file_path <- save_upload_file file ;;
     let extracted_text :=
       "[OCR Extracted Text from " +:+ filename file +:+ "]" +:+ nl +:+
       "संस्कृत श्लोक या प्राचीन पाठ यहाँ होगा..." in
     document <- new_CulturalDocument (filename file) script_type language
                   extracted_text "Unknown" ["ocr"; script_type; language] ;;
     embeddings <- encode extracted_text ;;
     let document := CulturalDocument.set_embeddings embeddings document in
     let doc_dict := CulturalDocument.dict document in
     insert_one db_cultural_documents doc_dict ;;;
     os_remove file_path ;;;
     ret (VDict (dict
       [("document_id", VStr (CulturalDocument.id document));
        ("extracted_text", VStr extracted_text);
        ("script_type", VStr script_type);
        ("language", VStr language);
        ("status", VStr "success")])))
    (fun e => raise (HTTPException 500 ("OCR processing failed: " +:+ str_exn e))).

(** [json.loads(response)] *)
Definition loads (response : string) : M value :=
  match json_loads env response with
  | Some v => ret v
  | None => raise (PyError "JSONDecodeError" "Expecting value")
  end.

Definition restore_fallback (response : string) : value :=
  VDict (dict
    [("restored_text", VStr response);
     ("changes_made", VList [VStr "AI restoration applied"]);
     ("confidence", VFloat (7 # 10));
     ("explanation", VStr "Text restored using AI cultural knowledge")]).

(** AI-powered restoration of damaged cultural texts *)
Definition restore_text (request : RestoreRequest.t) : M value :=
  try_except
    (chat <- get_llm_client "anthropic" "claude-sonnet-4-20250514" ;;
     response <- send_message chat (restoration_prompt request) ;;
     result <- try_except (loads response) (fun _ => ret (restore_fallback response)) ;;
     ret result)
    (fun e => raise (HTTPException 500 ("Text restoration failed: " +:+ str_exn e))).

Definition translate_fallback (response : string) : value :=
  VDict (dict
    [("translated_text", VStr response);
     ("cultural_notes", VStr "AI translation with cultural awareness");
     ("confidence", VFloat (8 # 10))]).

(** Culturally-aware translation using AI *)
Definition translate_text (request : TranslateRequest.t) : M value :=
  try_except
    (chat <- get_llm_client "gemini" "gemini-2.0-flash" ;;
     response <- send_message chat (translation_prompt request) ;;
     result <- try_except (loads response) (fun _ => ret (translate_fallback response)) ;;
     ret result)
    (fun e => raise (HTTPException 500 ("Translation failed: " +:+ str_exn e))).

(** Upload and transcribe folk song audio *)
Definition upload_folk_song (file : UploadFile) (performer region language : string) : M value :=
  try_except
    (file_path <- save_upload_file file ;;
     let transcription :=
       "[Folk Song Transcription for " +:+ filename file +:+ "]" +:+ nl +:+
       "गीत के बोल यहाँ होंगे... (Transcribed lyrics would appear here)" in
     folk_song <- new_FolkSong (filename file) performer region language
                    transcription file_path ;;
     embeddings <- encode transcription ;;
     let folk_song := FolkSong.set_embeddings embeddings folk_song in
     let song_dict := FolkSong.dict folk_song in
     insert_one db_folk_songs song_dict ;;;
     ret (VDict (dict
       [("song_id", VStr (FolkSong.id folk_song));
        ("transcription", VStr transcription);
        ("performer", VStr performer);
        ("region", VStr region);
        ("status", VStr "success")])))
    (fun e => raise (HTTPException 500 ("Speech processing failed: " +:+ str_exn e))).

(** [if not doc]: [None] and the empty dict are falsy. *)
Definition truthy (o : option doc) : option doc :=
  match o with
  | Some d => if (size d =? 0)%nat then None else Some d
  | None => None
  end.

(** The [if]/[elif] chain on [story_type]: it has no [else], so [prompt]
    stays unbound ([None]) for any other value. *)
Definition story_prompt (request : StoryRequest.t) (d : doc) : M (option string) :=
  let text := py_str (dict_get d "original_text" (VStr EmptyString)) in
  if String.eqb (StoryRequest.story_type request) "summary" then
    title <- getitem d "title" ;;
    language <- getitem d "language" ;;
    ret (Some (summary_prompt request (py_str title) text (py_str language)))
  else if String.eqb (StoryRequest.story_type request) "interactive" then
    title <- getitem d "title" ;;
    ret (Some (interactive_prompt (py_str title) text))
  else if String.eqb (StoryRequest.story_type request) "quiz" then
    title <- getitem d "title" ;;
    ret (Some (quiz_prompt (py_str title) text))
  else ret None.

(** Reading a local variable. *)
Definition load_local {A} (name : string) (x : option A) : M A :=
  match x with
  | Some a => ret a
  | None =>
      raise (PyError "UnboundLocalError"
               ("cannot access local variable '" +:+ name +:+
                "' where it is not associated with a value"))
  end.

(** [generate_story] once the source document [d] is found. *)
Definition generate_story_from (request : StoryRequest.t) (d : doc) : M value :=
  chat <- get_llm_client "openai" "gpt-5" ;;
  prompt <- story_prompt request d ;;
  (* the argument is evaluated before the call is made *)
  user_message <- load_local "prompt" prompt ;;
  response <- send_message chat user_message ;;
  title <- getitem d "title" ;;
  story <- new_Story
             (py_str title +:+ " - " +:+ str_title (StoryRequest.story_type request))
             response (StoryRequest.document_id request)
             (StoryRequest.story_type request)
             (StoryRequest.target_language request) ;;
  let story_dict := Story.dict story in
  insert_one db_stories story_dict ;;;
  source_document <- getitem d "title" ;;
  ret (VDict (dict
    [("story_id", VStr (Story.id story));
     ("content", VStr response);
     ("story_type", VStr (StoryRequest.story_type request));
     ("source_document", source_document)])).

(** The body of the [try] block of [generate_story]. *)
Definition generate_story_body (request : StoryRequest.t) : M value :=
  found <- find_one db_cultural_documents
             (QField "id" (CEq (StoryRequest.document_id request))) ;;
  match truthy found with
  | None => raise (HTTPException 404 "Document not found")
  | Some d => generate_story_from request d
  end.

(** Generate interactive stories from cultural documents *)
Definition generate_story (request : StoryRequest.t) : M value :=
  try_except (generate_story_body request)
    (fun e => raise (HTTPException 500 ("Story generation failed: " +:+ str_exn e))).

(** A [for] loop that appends one item per element. *)
Fixpoint for_each {A B} (f : A -> M B) (l : list A) : M (list B) :=
  match l with
  | [] => ret []
  | a :: l' => b <- f a ;; bs <- for_each f l' ;; ret (b :: bs)
  end.

Definition document_item (d : doc) : M doc :=
  id <- getitem d "id" ;;
  title <- getitem d "title" ;;
  language <- getitem d "language" ;;
  ret (dict [("type", VStr "document");
             ("id", id);
             ("title", title);
             ("content", dict_get d "original_text" (VStr EmptyString));
             ("language", language);
             ("region", dict_get d "region" (VStr EmptyString));
             ("score", VFloat (8 # 10))]).

Definition folk_song_item (song : doc) : M doc :=
  id <- getitem song "id" ;;
  title <- getitem song "title" ;;
  region <- getitem song "region" ;;
  ret (dict [("type", VStr "folk_song");
             ("id", id);
             ("title", title);
             ("content", dict_get song "transcription" (VStr EmptyString));
             ("performer", dict_get song "performer" (VStr EmptyString));
             ("region", region);
             ("score", VFloat (7 # 10))]).

(** The sort key [x["score"]]; every item built above carries one. *)
Definition score (x : doc) : Q :=
  match x !! "score" with
  | Some (VFloat q) => q
  | _ => 0%Q
  end.

(** [sorted(l, key=key, reverse=True)]: descending and stable, items with
    equal keys keep their order. *)
Fixpoint insert_desc {A} (key : A -> Q) (x : A) (l : list A) : list A :=
  match l with
  | [] => [x]
  | y :: l' => if Qle_bool (key y) (key x) then x :: y :: l' else y :: insert_desc key x l'
  end.

Fixpoint sorted_reverse {A} (key : A -> Q) (l : list A) : list A :=
  match l with
  | [] => []
  | x :: l' => insert_desc key x (sorted_reverse key l')
  end.

(** [doc.get("original_text", "")[:200] + "..."] *)
Definition truncated_content (d : doc) : M value :=
  match dict_get d "original_text" (VStr EmptyString) with
  | VStr s => ret (VStr (str_take 200 s +:+ "..."))
  | _ => raise (PyError "TypeError" "object is not subscriptable")
  end.

Definition keyword_item (d : doc) : M doc :=
  id <- getitem d "id" ;;
  title <- getitem d "title" ;;
  content <- truncated_content d ;;
  language <- getitem d "language" ;;
  ret (dict [("type", VStr "document");
             ("id", id);
             ("title", title);
             ("content", content);
             ("language", language);
             ("region", dict_get d "region" (VStr EmptyString))]).

Definition keyword_query (q : string) : mquery :=
  let regex_pattern := CRegex q "i" in
  QOr [("title", regex_pattern);
       ("original_text", regex_pattern);
       ("description", regex_pattern)].

(** The body of the [try] block of [search_content]: the list [results]. *)
Definition search_results (request : SearchRequest.t) : M (list doc) :=
  if String.eqb (SearchRequest.search_type request) "semantic" then
    query_embedding <- encode (SearchRequest.query request) ;;
    documents <- to_list None (cursor_limit (SearchRequest.limit request)
                                 (find db_cultural_documents QAll)) ;;
    folk_songs <- to_list None (cursor_limit (SearchRequest.limit request)
                                  (find db_folk_songs QAll)) ;;
    document_items <- for_each document_item documents ;;
    song_items <- for_each folk_song_item folk_songs ;;
    let all_content := document_items ++ song_items in
    ret (sorted_reverse score all_content)
  else
    documents <- to_list None (cursor_limit (SearchRequest.limit request)
                                 (find db_cultural_documents
                                    (keyword_query (SearchRequest.query request)))) ;;
    for_each keyword_item documents.

(** Semantic and keyword search across cultural content *)
Definition search_content (request : SearchRequest.t) : M value :=
  try_except
    (results <- search_results request ;;
     ret (VDict (dict
       [("query", VStr (SearchRequest.query request));
        ("search_type", VStr (SearchRequest.search_type request));
        ("results", VList (VDict <$> results));
        ("total_found", VInt (Z.of_nat (length results)))])))
    (fun e => raise (HTTPException 500 ("Search failed: " +:+ str_exn e))).

(** Get user's learning progress and badges *)
Definition get_user_progress (user_id : string) : M value :=
  progress <- find_one db_user_progress (QField "user_id" (CEq user_id)) ;;
  match truthy progress with
  | None =>
      new_progress <- new_UserProgress user_id ;;
      insert_one db_user_progress (UserProgress.dict new_progress) ;;;
      ret (VDict (UserProgress.dict new_progress))
  | Some progress => ret (VDict progress)
  end.

Definition badge_update (badge_name : string) : update_spec :=
  {| addToSet := [("badges", badge_name)]; inc := [("points", 10)] |}.

(** Award a badge to user *)
Definition award_badge (user_id badge_name : string) : M value :=
  update_one_upsert db_user_progress (QField "user_id" (CEq user_id))
    (badge_update badge_name) ;;;
  ret (VDict (dict [("message", VStr ("Badge '" +:+ badge_name +:+ "' awarded!"));
                    ("points", VInt 10)])).

(** Get all cultural documents *)
Definition get_documents : M value :=
  documents <- to_list (Some 100%nat) (find db_cultural_documents QAll) ;;
  ret (VList (VDict <$> documents)).

(** Get all folk songs *)
Definition get_folk_songs : M value :=
  songs <- to_list (Some 100%nat) (find db_folk_songs QAll) ;;
  ret (VList (VDict <$> songs)).

(** Placeholder for future AR/VR features *)
Definition vr_preview_placeholder (document_id : string) : M value :=
  ret (VDict (dict
    [("message", VStr "3D artifact preview coming soon!");
     ("document_id", VStr document_id);
     ("features", VList [VStr "Virtual manuscript viewing";
                         VStr "3D artifact reconstruction";
                         VStr "Immersive cultural experiences"]);
     ("status", VStr "in_development")])).

(** ** The API as a whole *)

Inductive request :=
| GET_root
| GET_health
| POST_ocr_upload (file : UploadFile) (script_type language : string)
| POST_restore (r : RestoreRequest.t)
| POST_translate (r : TranslateRequest.t)
| POST_speech_upload (file : UploadFile) (performer region language : string)
| POST_story_generate (r : StoryRequest.t)
| POST_search (r : SearchRequest.t)
| GET_user_progress (user_id : string)
| POST_user_badge (user_id badge_name : string)
| GET_documents
| GET_folk_songs
| GET_vr_preview (document_id : string).

Definition handler (r : request) : M value :=
  match r with
  | GET_root => root
  | GET_health => health_check
  | POST_ocr_upload f s l => upload_document_ocr f s l
  | POST_restore r => restore_text r
  | POST_translate r => translate_text r
  | POST_speech_upload f p r l => upload_folk_song f p r l
  | POST_story_generate r => generate_story r
  | POST_search r => search_content r
  | GET_user_progress u => get_user_progress u
  | POST_user_badge u b => award_badge u b
  | GET_documents => get_documents
  | GET_folk_songs => get_folk_songs
  | GET_vr_preview d => vr_preview_placeholder d
  end.

(** Serving a sequence of requests, one after the other. *)
Definition run (rs : list request) (w : World) : World :=
  foldl (fun w r => (serve (handler r) w).2) w rs.

End Handlers.

(** ** Vocabulary of the properties *)



(** The three text fields the keyword search looks at. *)
Definition text_fields (p : string -> bool) (d : doc) : bool :=
  on_string p (d !! "title") || on_string p (d !! "original_text")
  || on_string p (d !! "description").

(** A field read that cannot fail. *)
Definition field (d : doc) (k : string) : value := dict_get d k VNone.

Definition has_keys (ks : list string) (d : doc) : Prop :=
  Forall (fun k => is_Some (d !! k)) ks.

(** The result items of the search, as functions of the stored record. *)
Definition document_entry (d : doc) : doc :=
  dict [("type", VStr "document");
        ("id", field d "id");
        ("title", field d "title");
        ("content", dict_get d "original_text" (VStr EmptyString));
        ("language", field d "language");
        ("region", dict_get d "region" (VStr EmptyString));
        ("score", VFloat (8 # 10))].

Definition folk_song_entry (song : doc) : doc :=
  dict [("type", VStr "folk_song");
        ("id", field song "id");
        ("title", field song "title");
        ("content", dict_get song "transcription" (VStr EmptyString));
        ("performer", dict_get song "performer" (VStr EmptyString));
        ("region", field song "region");
        ("score", VFloat (7 # 10))].

Definition search_response (request : SearchRequest.t) (results : list doc) : value :=
  VDict (dict
    [("query", VStr (SearchRequest.query request));
     ("search_type", VStr (SearchRequest.search_type request));
     ("results", VList (VDict <$> results));
     ("total_found", VInt (Z.of_nat (length results)))]).

(** The progress record of a user: the first one the filter finds. *)
Definition is_user (user_id : string) (d : doc) : bool :=
  on_string (String.eqb user_id) (d !! "user_id").

Definition progress_of (user_id : string) (w : World) : option doc :=
  first_match (is_user user_id) (user_progress w).

(** Stored points and badges of a user; a user without a record has none. *)
Definition points_of (user_id : string) (w : World) : Z :=
  match progress_of user_id w with
  | Some d => match d !! "points" with Some (VInt z) => z | _ => 0 end
  | None => 0
  end.

Definition badges_of (user_id : string) (w : World) : list value :=
  match progress_of user_id w with
  | Some d => match d !! "badges" with Some (VList l) => l | _ => [] end
  | None => []
  end.

(** Shape of the progress records: [badges] is an array without duplicates
    and [points] an integer. *)
Definition progress_record_ok (d : doc) : Prop :=
  exists l z, d !! "badges" = Some (VList l) /\ NoDup l /\ d !! "points" = Some (VInt z).

Definition progress_ok (w : World) : Prop :=
  Forall progress_record_ok (user_progress w).

(** The badge list after [$addToSet]. *)
Definition add_badge (b : string) (l : list value) : list value :=
  if existsb (is_str b) l then l else l ++ [VStr b].

(** The record an upsert creates for a user without one. *)
Definition upserted (u b : string) (oid : nat) : doc :=
  <["_id" := VOid oid]>
    (<["points" := VInt 10]> (<["badges" := VList [VStr b]]> {[ "user_id" := VStr u ]})).

Definition badge_response (badge_name : string) : value :=
  VDict (dict [("message", VStr ("Badge '" +:+ badge_name +:+ "' awarded!"));
               ("points", VInt 10)]).

(** The path at which [save_upload_file] stages an upload in world [w]. *)
Definition staged_path (env : Env) (file : UploadFile) (w : World) : string :=
  (gettempdir env +:+ "/parampara_uploads") +:+ "/" +:+ uuid_of env (uuid_count w)
  +:+ "_" +:+ filename file.

(** Some stored document carries this [id]. *)
Definition has_document (id : string) (w : World) : bool :=
  existsb (fun d : doc => on_string (String.eqb id) (d !! "id")) (cultural_documents w).

Definition is_story_type (s : string) : bool :=
  String.eqb s "summary" || String.eqb s "interactive" || String.eqb s "quiz".

Definition error_detail (detail : string) : value :=
  VDict (dict [("detail", VStr detail)]).



(** A handler leaves related worlds behind. *)
Definition preserves {A} (R : World -> World -> Prop) (m : M A) : Prop :=
  forall w, R w (m w).2.

(** The four collections are as before. *)
Definition same_collections (w w' : World) : Prop :=
  forall c, coll_get c w' = coll_get c w.

Definition grows_documents (w w' : World) : Prop :=
  cultural_documents w `prefix_of` cultural_documents w'.

Definition keeps_progress_ok (w w' : World) : Prop :=
  progress_ok w -> progress_ok w'.

(** Collections and provider log are as before. *)
Definition same_store (w w' : World) : Prop :=
  cultural_documents w' = cultural_documents w /\
  folk_songs w' = folk_songs w /\
  stories w' = stories w /\
  user_progress w' = user_progress w /\
  llm_log w' = llm_log w.

(** ** A sample environment

    A concrete environment on which the handlers run: a credential, a
    constant embedding, a provider that answers in prose, and small stand-ins
    for the two library functions.  [Pattern] implements the fragment of the
    store's pattern language made of literal characters, [.] and [*];
    [sample_json_loads] reads the JSON literals and the three floats
    that are not finite. *)

Module Pattern.

Inductive atom :=
| Lit (c : ascii)
| Dot.

(** An atom and whether it is starred. *)
Definition item : Type := atom * bool.

Definition is_meta (c : ascii) : bool :=
  existsb (fun m => bool_decide (c = m))
    (String.list_ascii_of_string "\^$.|?*+()[]{}").

Definition is_alnum (c : ascii) : bool :=
  is_lower c || is_upper c ||
  let n := nat_of_ascii c in (48 <=? n)%nat && (n <=? 57)%nat.

Definition star_follows (s : string) : bool :=
  match s with
  | String "*" _ => true
  | _ => false
  end.

Definition drop_star (s : string) : string :=
  match s with
  | String "*" s' => s'
  | _ => s
  end.

(** [None] outside the fragment.  [fuel] bounds the number of atoms. *)
Fixpoint parse (fuel : nat) (s : string) : option (list item) :=
  match fuel, s with
  | _, EmptyString => Some []
  | O, _ => None
  | S fuel', String c s' =>
      if bool_decide (c = "."%char) then
        rest ← parse fuel' (drop_star s'); Some ((Dot, star_follows s') :: rest)
      else if bool_decide (c = "\"%char) then
        match s' with
        | String e s'' =>
            if is_alnum e then None
            else rest ← parse fuel' (drop_star s''); Some ((Lit e, star_follows s'') :: rest)
        | EmptyString => None
        end
      else if is_meta c then None
      else rest ← parse fuel' (drop_star s'); Some ((Lit c, star_follows s') :: rest)
  end.

Definition atom_ok (ci : bool) (a : atom) (c : ascii) : bool :=
  match a with
  | Lit x => if ci then bool_decide (to_lower x = to_lower c) else bool_decide (x = c)
  | Dot => negb (bool_decide (c = "010"%char))
  end.

Fixpoint match_here (ci : bool) (p : list item) : string -> bool :=
  match p with
  | [] => fun _ => true
  | (a, false) :: p' => fun s =>
      match s with
      | String c s' => atom_ok ci a c && match_here ci p' s'
      | EmptyString => false
      end
  | (a, true) :: p' =>
      fix star (s : string) : bool :=
        match_here ci p' s ||
        match s with
        | String c s' => atom_ok ci a c && star s'
        | EmptyString => false
        end
  end.

Fixpoint search (ci : bool) (p : list item) (s : string) : bool :=
  match_here ci p s ||
  match s with
  | String _ s' => search ci p s'
  | EmptyString => false
  end.

Definition compile (pattern options : string) : option (string -> bool) :=
  p ← parse (String.length pattern) pattern;
  if String.eqb options "i" then Some (search true p)
  else if String.eqb options EmptyString then Some (search false p)
  else None.

End Pattern.

Definition sample_json_loads (s : string) : option value :=
  if String.eqb s "null" then Some VNone
  else if String.eqb s "true" then Some (VBool true)
  else if String.eqb s "false" then Some (VBool false)
  else if String.eqb s "NaN" then Some (VNonFinite NaN)
  else if String.eqb s "Infinity" then Some (VNonFinite PosInf)
  else if String.eqb s "-Infinity" then Some (VNonFinite NegInf)
  else None.

Definition sample_env : Env :=
  {| EMERGENT_LLM_KEY := Some "sk-universal";
     embedding_model := Some (fun _ => [0%Q; 0%Q; 0%Q]);
     provider_reply := fun _ _ _ _ => inr "Once, in a village by the river";
     json_loads := sample_json_loads;
     regex_compile := Pattern.compile;
     regex_error := fun p _ => "Regular expression is invalid: " +:+ p;
     fs_creatable := fun _ => true;
     gettempdir := "/tmp";
     uuid_of := fun n => "uuid-" +:+ pretty n;
     utc_of := fun n => 1700000000 + Z.of_nat n;
     py_repr := fun _ => "<object>" |}.

(** The same deployment without the sentence-transformer package. *)
Definition env_without_embeddings : Env :=
  {| EMERGENT_LLM_KEY := EMERGENT_LLM_KEY sample_env;
     embedding_model := None;
     provider_reply := provider_reply sample_env;
     json_loads := json_loads sample_env;
     regex_compile := regex_compile sample_env;
     regex_error := regex_error sample_env;
     fs_creatable := fs_creatable sample_env;
     gettempdir := gettempdir sample_env;
     uuid_of := uuid_of sample_env;
     utc_of := utc_of sample_env;
     py_repr := py_repr sample_env |}.

Definition manuscript : UploadFile :=
  {| filename := "abc"; file_bytes := "palm leaf scan" |}.

Definition lullaby : UploadFile :=
  {| filename := "lullaby.wav"; file_bytes := "RIFF" |}.

(** The store after one manuscript upload. *)
Definition one_upload : World :=
  run sample_env [POST_ocr_upload manuscript "devanagari" "sanskrit"] empty_world.

(** The result of a computation that returned. *)
Definition returned {A} (default : A) (r : outcome A * World) : A :=
  match r.1 with
  | Return a => a
  | Raise _ => default
  end.

Definition has_returned {A} (r : outcome A * World) : bool :=
  match r.1 with
  | Return _ => true
  | Raise _ => false
  end.

Definition keyword_request (q : string) : SearchRequest.t :=
  {| SearchRequest.query := q; SearchRequest.search_type := "keyword";
     SearchRequest.language := None; SearchRequest.limit := 10 |}.

(** The record stored by the upload of [manuscript]. *)
Definition the_manuscript : doc :=
  default ∅ (head (cultural_documents one_upload)).



(** The store after a manuscript and a song. *)
Definition two_uploads : World :=
  run sample_env [POST_ocr_upload manuscript "devanagari" "sanskrit";
                  POST_speech_upload lullaby "Asha" "Bengal" "bengali"] empty_world.


(** ** Vocabulary of the further properties *)

(** The record [UserProgress(user_id=u)] with its generated base fields. *)
Definition fresh_progress (env : Env) (u : string) (w : World) : doc :=
  UserProgress.dict
    {| UserProgress.base :=
         {| BaseDocument.id := uuid_of env (uuid_count w);
            BaseDocument.created_at := utc_of env (clock_count w);
            BaseDocument.updated_at := utc_of env (S (clock_count w)) |};
       UserProgress.user_id := u;
       UserProgress.badges := [];
       UserProgress.points := 0;
       UserProgress.documents_explored := [];
       UserProgress.translations_contributed := 0;
       UserProgress.stories_completed := 0 |}.

(** Nothing stored is lost: the three content collections grow at their end
    and the ledger does not shrink. *)
Definition grows_store (w w' : World) : Prop :=
  cultural_documents w `prefix_of` cultural_documents w' /\
  folk_songs w `prefix_of` folk_songs w' /\
  stories w `prefix_of` stories w' /\
  (length (user_progress w) <= length (user_progress w'))%nat.

(** Requests that only read the store. *)
Definition reads_only (r : request) : bool :=
  match r with
  | POST_ocr_upload _ _ _ | POST_speech_upload _ _ _ _
  | POST_story_generate _ | GET_user_progress _ | POST_user_badge _ _ => false
  | _ => true
  end.

(** Variants of the sample deployment: no credential, a provider that is
    down, a provider that answers in JSON. *)
Definition env_without_key : Env :=
  {| EMERGENT_LLM_KEY := None;
     embedding_model := embedding_model sample_env;
     provider_reply := provider_reply sample_env;
     json_loads := json_loads sample_env;
     regex_compile := regex_compile sample_env;
     regex_error := regex_error sample_env;
     fs_creatable := fs_creatable sample_env;
     gettempdir := gettempdir sample_env;
     uuid_of := uuid_of sample_env;
     utc_of := utc_of sample_env;
     py_repr := py_repr sample_env |}.

Definition env_provider_down : Env :=
  {| EMERGENT_LLM_KEY := EMERGENT_LLM_KEY sample_env;
     embedding_model := embedding_model sample_env;
     provider_reply := fun _ _ _ _ => inl (PyError "TimeoutError" "timed out");
     json_loads := json_loads sample_env;
     regex_compile := regex_compile sample_env;
     regex_error := regex_error sample_env;
     fs_creatable := fs_creatable sample_env;
     gettempdir := gettempdir sample_env;
     uuid_of := uuid_of sample_env;
     utc_of := utc_of sample_env;
     py_repr := py_repr sample_env |}.



(** Every stored record carries the store's [_id]. *)
Definition stored_with_id (w : World) : Prop :=
  forall c, Forall (fun d : doc => is_Some (d !! "_id")) (coll_get c w).

Definition keeps_stored_with_id (w w' : World) : Prop :=
  stored_with_id w -> stored_with_id w'.

Definition semantic_request (q : string) (limit : Z) : SearchRequest.t :=
  {| SearchRequest.query := q; SearchRequest.search_type := "semantic";
     SearchRequest.language := None; SearchRequest.limit := limit |}.

(** A deployment whose upload directory cannot be written. *)
Definition env_read_only_tmp : Env :=
  {| EMERGENT_LLM_KEY := EMERGENT_LLM_KEY sample_env;
     embedding_model := embedding_model sample_env;
     provider_reply := provider_reply sample_env;
     json_loads := json_loads sample_env;
     regex_compile := regex_compile sample_env;
     regex_error := regex_error sample_env;
     fs_creatable := fun _ => false;
     gettempdir := gettempdir sample_env;
     uuid_of := uuid_of sample_env;
     utc_of := utc_of sample_env;
     py_repr := py_repr sample_env |}.

(** A summary of the uploaded manuscript, whose [id] is the second
    identifier drawn by the upload. *)
Definition summary_request : StoryRequest.t :=
  {| StoryRequest.document_id := "uuid-1"; StoryRequest.story_type := "summary";
     StoryRequest.target_language := "english" |}.

(** The requests whose handlers talk to the provider. *)
Definition calls_provider (r : request) : bool :=
  match r with
  | POST_restore _ | POST_translate _ | POST_story_generate _ => true
  | _ => false
  end.

(** [m] appends at most [n] messages to the provider log and removes none. *)
Definition sends (n : nat) {A} (m : M A) : Prop :=
  forall w, exists msgs,
    llm_log (m w).2 = llm_log w ++ msgs /\ (length msgs <= n)%nat.
(** * Properties *)

(** Closed equations are settled by evaluation. *)
Ltac by_evaluation :=
  match goal with
  | |- ?a = ?b => exact (@eq_refl _ b <: a = b)
  end.

(** ** Running the monad *)

Lemma run_bind {A B} (m : M A) (k : A -> M B) w a w1 :
  m w = (Return a, w1) -> bind m k w = k a w1.
Proof. intros E. unfold bind. by rewrite E. Qed.

Lemma run_bind_raise {A B} (m : M A) (k : A -> M B) w e w1 :
  m w = (Raise e, w1) -> bind m k w = (Raise e, w1).
Proof. intros E. unfold bind. by rewrite E. Qed.

Lemma run_bind_case {A B} (m : M A) (k : A -> M B) w :
  bind m k w = match m w with
               | (Return a, w1) => k a w1
               | (Raise e, w1) => (Raise e, w1)
               end.
Proof. reflexivity. Qed.

Lemma string_eqb_refl (s : string) : String.eqb s s = true.
Proof. by apply String.eqb_eq. Qed.

(** ** The store's filters *)

Lemma compile_eq_query env k s :
  compile_query env (QField k (CEq s)) =
  Some (fun d : doc => on_string (String.eqb s) (d !! k)).
Proof. reflexivity. Qed.

Lemma first_match_None (p : doc -> bool) l :
  Forall (fun d => p d = false) l -> first_match p l = None.
Proof.
  unfold first_match. induction 1 as [|d l Hd _ IH]; [done|].
  rewrite filter_cons. destruct (decide (p d = true)); [congruence | done].
Qed.

Lemma first_match_Some (p : doc -> bool) l d :
  first_match p l = Some d -> d ∈ l /\ p d = true.
Proof.
  unfold first_match. intros H. apply head_Some in H as [l' H].
  assert (Hin : d ∈ filter (fun d => p d = true) l) by (rewrite H; left).
  by apply list_elem_of_filter in Hin as [? ?].
Qed.

Lemma first_match_app_l (p : doc -> bool) l l' d :
  first_match p l = Some d -> first_match p (l ++ l') = Some d.
Proof.
  unfold first_match. rewrite filter_app.
  destruct (filter _ l); [done|]. simpl. congruence.
Qed.

Lemma first_match_is_Some (p : doc -> bool) l d :
  d ∈ l -> p d = true -> is_Some (first_match p l).
Proof.
  intros Hin Hp. unfold first_match.
  assert (H : d ∈ filter (fun d => p d = true) l) by by apply list_elem_of_filter.
  destruct (filter _ l); [by apply elem_of_nil in H | by eexists].
Qed.

Lemma on_string_eqb s o :
  on_string (String.eqb s) o = true <-> o = Some (VStr s).
Proof.
  destruct o as [[]|]; simpl; try (split; [discriminate | congruence]).
  rewrite String.eqb_eq. split; congruence.
Qed.

Lemma truthy_Some (d : doc) k v : d !! k = Some v -> truthy (Some d) = Some d.
Proof.
  intros H. unfold truthy. destruct (size d =? 0)%nat eqn:E; [|done].
  apply Nat.eqb_eq, map_size_empty_iff in E. subst. by rewrite lookup_empty in H.
Qed.

Lemma returned_run {A} (m : M A) (default : A) w :
  has_returned (m w) = true ->
  m w = (Return (returned default (m w)), (m w).2).
Proof.
  unfold has_returned, returned. by destruct (m w) as [[a|e] w1].
Qed.

Lemma found_default {A} (x : option A) (a : A) :
  match x with Some _ => true | None => false end = true -> x = Some (default a x).
Proof. by destruct x. Qed.

Lemma serve_snd (h : M value) w : (serve h w).2 = (h w).2.
Proof. unfold serve. by destruct (h w) as [[v|[]] w1]. Qed.

Lemma serve_Return (h : M value) w v w1 :
  h w = (Return v, w1) -> serve h w = (respond v, w1).
Proof. intros E. unfold serve. by rewrite E. Qed.

Lemma respond_jsonable v : jsonable v = true -> respond v = Response 200 v.
Proof. intros E. unfold respond. by rewrite E. Qed.

Lemma respond_not_jsonable v : jsonable v = false -> respond v = internal_server_error.
Proof. intros E. unfold respond. by rewrite E. Qed.

Lemma serve_200 (h : M value) w :
  has_returned (h w) = true ->
  jsonable (returned VNone (h w)) = true ->
  serve h w = (Response 200 (body_of (serve h w).1), (serve h w).2).
Proof.
  unfold has_returned, returned, serve, respond.
  destruct (h w) as [[a|e] w1]; [|discriminate]. cbn [fst snd].
  intros _ ->. reflexivity.
Qed.

(** A handler whose [except] clause raises a 500 answers 200 only by
    returning a value the framework can encode. *)
Lemma serve_guarded_200 (m : M value) (detail : exn -> string) w body w1 :
  serve (try_except m (fun e => raise (HTTPException 500 (detail e)))) w
    = (Response 200 body, w1) ->
  m w = (Return body, w1) /\ jsonable body = true.
Proof.
  unfold serve, try_except, raise, respond, internal_server_error.
  destruct (m w) as [[v|e] w']; [|discriminate].
  destruct (jsonable v) eqn:E; [|discriminate]. by intros [= <- <-].
Qed.

(** ** What the framework can encode *)

Lemma jsonable_dict (d : doc) :
  jsonable (VDict d) = true <-> map_Forall (fun _ v => jsonable v = true) d.
Proof.
  cbn [jsonable].
  induction d as [|k v d Hk Hfold IH] using map_first_key_ind.
  - rewrite map_fold_empty. split; [intros _; apply map_Forall_empty | done].
  - rewrite map_fold_insert_first_key by done.
    rewrite andb_true_iff, IH, map_Forall_insert by done. tauto.
Qed.

Lemma jsonable_dict_lookup (d : doc) k v :
  d !! k = Some v -> jsonable v = false -> jsonable (VDict d) = false.
Proof.
  intros Hk Hv. destruct (jsonable (VDict d)) eqn:E; [|done].
  apply jsonable_dict in E. specialize (E k v Hk). cbv beta in E. congruence.
Qed.

Lemma jsonable_stored_record (d : doc) i :
  d !! "_id" = Some (VOid i) -> jsonable (VDict d) = false.
Proof. intros H. by apply (jsonable_dict_lookup d "_id" (VOid i)). Qed.

Lemma jsonable_list (l : list value) :
  jsonable (VList l) = true <-> Forall (fun v => jsonable v = true) l.
Proof.
  cbn [jsonable]. rewrite forallb_forall, Forall_forall.
  split; intros H x Hx; apply H; by apply list_elem_of_In.
Qed.

Lemma jsonable_list_elem (l : list value) v :
  v ∈ l -> jsonable v = false -> jsonable (VList l) = false.
Proof.
  intros Hin Hv. destruct (jsonable (VList l)) eqn:E; [|done].
  apply jsonable_list in E. eapply Forall_forall in E; [|exact Hin]. congruence.
Qed.

(** ** Response normalisation: [/restore] and [/translate] *)

Lemma get_llm_client_ok env provider model w :
  or_default (EMERGENT_LLM_KEY env) EmptyString <> EmptyString ->
  exists chat w1,
    get_llm_client env provider model w = (Return chat, w1) /\
    chat_provider chat = provider /\ chat_model chat = model /\
    same_store w w1.
Proof.
  intros Hkey. unfold get_llm_client.
  destruct (or_default _ _) as [|a k]; [done|].
  eexists _, _. split; [reflexivity|]. by repeat split.
Qed.

Lemma send_message_reply env chat prompt w text :
  provider_reply env (length (llm_log w)) (chat_provider chat) (chat_model chat) prompt
    = inr text ->
  exists w1, send_message env chat prompt w = (Return text, w1).
Proof.
  intros Hreply. unfold send_message, bind, gets, modify. simpl.
  rewrite Hreply. by eexists.
Qed.

Lemma loads_fallback env text (fallback : value) w :
  json_loads env text = None ->
  try_except (loads env text) (fun _ => ret fallback) w = (Return fallback, w).
Proof. intros H. unfold try_except, loads. by rewrite H. Qed.

(** C1. When the provider call succeeds and its text is not JSON, [/restore]
    and [/translate] answer 200 with the raw text as [restored_text]
    (respectively [translated_text]) and the fixed placeholders: confidence
    0.7 and the one-item change list for [/restore], confidence 0.8 for
    [/translate]. *)
Theorem malformed_provider_output_falls_back (env : Env) (w : World) (text : string) :
  or_default (EMERGENT_LLM_KEY env) EmptyString <> EmptyString ->
  json_loads env text = None ->
  (forall request,
      provider_reply env (length (llm_log w)) "anthropic" "claude-sonnet-4-20250514"
        (restoration_prompt request) = inr text ->
      (serve (restore_text env request) w).1 =
      Response 200 (VDict (dict
        [("restored_text", VStr text);
         ("changes_made", VList [VStr "AI restoration applied"]);
         ("confidence", VFloat (7 # 10));
         ("explanation", VStr "Text restored using AI cultural knowledge")]))) /\
  (forall request,
      provider_reply env (length (llm_log w)) "gemini" "gemini-2.0-flash"
        (translation_prompt request) = inr text ->
      (serve (translate_text env request) w).1 =
      Response 200 (VDict (dict
        [("translated_text", VStr text);
         ("cultural_notes", VStr "AI translation with cultural awareness");
         ("confidence", VFloat (8 # 10))]))).
Proof.
  intros Hkey Hjson. split; intros request Hreply.
  - destruct (get_llm_client_ok env "anthropic" "claude-sonnet-4-20250514" w Hkey)
      as (chat & w1 & Hchat & Hp & Hm & Hsame).
    destruct (send_message_reply env chat (restoration_prompt request) w1 text)
      as [w2 Hsend].
    { rewrite Hp, Hm. destruct Hsame as (_ & _ & _ & _ & ->). exact Hreply. }
    unfold serve, restore_text, try_except at 1.
    rewrite (run_bind _ _ _ _ _ Hchat), (run_bind _ _ _ _ _ Hsend).
    by rewrite (run_bind _ _ _ _ _ (loads_fallback env text (restore_fallback text) w2 Hjson)).
  - destruct (get_llm_client_ok env "gemini" "gemini-2.0-flash" w Hkey)
      as (chat & w1 & Hchat & Hp & Hm & Hsame).
    destruct (send_message_reply env chat (translation_prompt request) w1 text)
      as [w2 Hsend].
    { rewrite Hp, Hm. destruct Hsame as (_ & _ & _ & _ & ->). exact Hreply. }
    unfold serve, translate_text, try_except at 1.
    rewrite (run_bind _ _ _ _ _ Hchat), (run_bind _ _ _ _ _ Hsend).
    by rewrite (run_bind _ _ _ _ _ (loads_fallback env text (translate_fallback text) w2 Hjson)).
Qed.

Lemma malformed_provider_output_falls_back_witness :
  (serve (restore_text sample_env
            {| RestoreRequest.text := "dharmo rak.ati"; RestoreRequest.language := "sanskrit";
               RestoreRequest.context := None |}) empty_world).1 =
  Response 200 (VDict (dict
    [("restored_text", VStr "Once, in a village by the river");
     ("changes_made", VList [VStr "AI restoration applied"]);
     ("confidence", VFloat (7 # 10));
     ("explanation", VStr "Text restored using AI cultural knowledge")])).
Proof.
  refine (proj1 (malformed_provider_output_falls_back sample_env empty_world
                   "Once, in a village by the river" _ _) _ _);
    [discriminate | reflexivity | reflexivity].
Defined.

(** ** Story generation *)

Lemma find_document_unknown env id w :
  Forall (fun d : doc => d !! "id" <> Some (VStr id)) (cultural_documents w) ->
  find_one env db_cultural_documents (QField "id" (CEq id)) w = (Return None, w).
Proof.
  intros H. unfold find_one. rewrite compile_eq_query.
  unfold bind, gets, ret. simpl. rewrite first_match_None; [done|].
  eapply Forall_impl; [exact H|]. intros d Hd. simpl in Hd.
  destruct (on_string _ _) eqn:E; [|done]. by apply on_string_eqb in E.
Qed.

(** C2.  With a [document_id] that no stored document carries, the handler
    raises its 404 inside the [try] block, the [except Exception] clause
    turns it into a 500; no message reaches the provider and nothing is
    written: the world is unchanged. *)
Theorem unknown_document_is_answered_500 (env : Env) (w : World) (request : StoryRequest.t) :
  Forall (fun d : doc => d !! "id" <> Some (VStr (StoryRequest.document_id request)))
    (cultural_documents w) ->
  serve (generate_story env request) w =
  (Response 500 (error_detail "Story generation failed: 404: Document not found"), w).
Proof.
  intros H. unfold serve, generate_story, try_except, generate_story_body.
  by rewrite (run_bind _ _ _ _ _ (find_document_unknown env _ w H)).
Qed.

Lemma unknown_document_is_answered_500_witness :
  serve (generate_story sample_env
           {| StoryRequest.document_id := "no-such-id"; StoryRequest.story_type := "summary";
              StoryRequest.target_language := "english" |}) empty_world =
  (Response 500 (error_detail "Story generation failed: 404: Document not found"),
   empty_world).
Proof. apply unknown_document_is_answered_500. constructor. Defined.

Lemma find_one_eq env c k s w :
  find_one env c (QField k (CEq s)) w =
  (Return (first_match (fun d : doc => on_string (String.eqb s) (d !! k)) (coll_get c w)), w).
Proof. reflexivity. Qed.

Lemma same_store_refl w : same_store w w.
Proof. by repeat split. Qed.

Lemma story_prompt_unbound env request d w :
  is_story_type (StoryRequest.story_type request) = false ->
  story_prompt env request d w = (Return None, w).
Proof.
  unfold is_story_type, story_prompt. intros H.
  apply orb_false_elim in H as [H H3]. apply orb_false_elim in H as [H1 H2].
  by rewrite H1, H2, H3.
Qed.

(** C3.  The handler does not validate [story_type].  A value other than
    summary, interactive and quiz matches no branch of the [if]/[elif]
    chain, which has no [else]: the request ends in a 500 from the handler's
    [except] clause, with no message sent to the provider, no story stored
    and no template substituted.  When the document exists and the
    credential is set, the error is the [UnboundLocalError] raised by
    reading [prompt], after the document was looked up and the provider
    client was set up (one identifier drawn for its session): a crash
    wrapped by the handler's message, not a validation error. *)
Theorem unrecognized_story_type_raises_unbound_local (env : Env) (w : World)
    (request : StoryRequest.t) :
  is_story_type (StoryRequest.story_type request) = false ->
  (exists detail w',
      serve (generate_story env request) w = (Response 500 (error_detail detail), w') /\
      llm_log w' = llm_log w /\
      stories w' = stories w /\
      same_store w w') /\
  (or_default (EMERGENT_LLM_KEY env) EmptyString <> EmptyString ->
   has_document (StoryRequest.document_id request) w = true ->
      exists msg w',
        generate_story_body env request w = (Raise (PyError "UnboundLocalError" msg), w') /\
        serve (generate_story env request) w =
          (Response 500 (error_detail ("Story generation failed: " +:+ msg)), w') /\
        uuid_count w' = S (uuid_count w) /\
        same_store w w').
Proof.
  intros Htype. split.
  - unfold serve, generate_story, try_except, generate_story_body.
    rewrite (run_bind _ _ _ _ _ (find_one_eq env _ _ _ w)).
    destruct (truthy _) as [d|]; simpl.
    + unfold generate_story_from, get_llm_client.
      destruct (or_default _ _) as [|a key]; simpl.
      * eexists _, w. split; [reflexivity|]. split; [reflexivity|].
        split; [reflexivity | apply same_store_refl].
      * unfold bind at 1. simpl. unfold bind at 1.
        rewrite story_prompt_unbound by done. simpl.
        eexists _, _. split; [reflexivity|]. split; [reflexivity|].
        split; [reflexivity|]. unfold same_store. tauto.
    + eexists _, w. split; [reflexivity|]. split; [reflexivity|].
      split; [reflexivity | apply same_store_refl].
  - intros Hkey Hdoc.
    assert (Hfound : exists d,
      first_match (fun d : doc =>
                     on_string (String.eqb (StoryRequest.document_id request)) (d !! "id"))
        (cultural_documents w) = Some d).
    { unfold has_document in Hdoc. apply existsb_exists in Hdoc as (d & Hin & Hd).
      apply (first_match_is_Some _ _ d); [by apply list_elem_of_In | exact Hd]. }
    destruct Hfound as [d Hfound].
    assert (Hbody : exists msg w',
      generate_story_body env request w = (Raise (PyError "UnboundLocalError" msg), w') /\
      uuid_count w' = S (uuid_count w) /\ same_store w w').
    { unfold generate_story_body.
      rewrite (run_bind _ _ _ _ _ (find_one_eq env _ _ _ w)). cbn [coll_get].
      rewrite Hfound. apply first_match_Some in Hfound as [_ Hid].
      apply on_string_eqb in Hid. rewrite (truthy_Some _ _ _ Hid).
      unfold generate_story_from, get_llm_client.
      destruct (or_default _ _) as [|a key]; [done|].
      unfold bind at 1. simpl. unfold bind at 1.
      rewrite story_prompt_unbound by done. simpl.
      eexists _, _. split; [reflexivity|]. split; [reflexivity|].
      unfold same_store. tauto. }
    destruct Hbody as (msg & w' & Hbody & Huuid & Hsame).
    exists msg, w'. split; [exact Hbody|]. split; [|split; [exact Huuid | exact Hsame]].
    unfold serve, generate_story, try_except. by rewrite Hbody.
Qed.

Lemma unrecognized_story_type_raises_unbound_local_witness :
  exists msg w',
    generate_story_body sample_env
      {| StoryRequest.document_id := "uuid-1"; StoryRequest.story_type := "poem";
         StoryRequest.target_language := "english" |} one_upload
    = (Raise (PyError "UnboundLocalError" msg), w') /\
    serve (generate_story sample_env
             {| StoryRequest.document_id := "uuid-1"; StoryRequest.story_type := "poem";
                StoryRequest.target_language := "english" |}) one_upload
    = (Response 500 (error_detail ("Story generation failed: " +:+ msg)), w') /\
    uuid_count w' = S (uuid_count one_upload) /\
    same_store one_upload w'.
Proof.
  refine (proj2 (unrecognized_story_type_raises_unbound_local sample_env one_upload
                   {| StoryRequest.document_id := "uuid-1"; StoryRequest.story_type := "poem";
                      StoryRequest.target_language := "english" |} _)
            _ _).
  - reflexivity.
  - discriminate.
  - by_evaluation.
Defined.

(** ** The gamification ledger *)

Lemma existsb_is_str s (l : list value) :
  existsb (is_str s) l = true <-> VStr s ∈ l.
Proof.
  rewrite existsb_exists. split.
  - intros (v & Hin & Hv). apply list_elem_of_In in Hin.
    destruct v; try discriminate. simpl in Hv. apply String.eqb_eq in Hv. by subst.
  - intros Hin. exists (VStr s). split; [by apply list_elem_of_In|].
    simpl. apply string_eqb_refl.
Qed.

Lemma add_badge_elem b l x : x ∈ add_badge b l <-> x = VStr b \/ x ∈ l.
Proof.
  unfold add_badge. destruct (existsb _ l) eqn:E.
  - apply existsb_is_str in E. split; [auto|]. intros [->|]; done.
  - rewrite elem_of_app, list_elem_of_singleton. tauto.
Qed.

Lemma add_badge_NoDup b l : NoDup l -> NoDup (add_badge b l).
Proof.
  intros Hl. unfold add_badge. destruct (existsb _ l) eqn:E; [done|].
  apply NoDup_app. split; [done|]. split; [|apply NoDup_singleton].
  intros x Hx Hb. apply list_elem_of_singleton in Hb. subst.
  apply existsb_is_str in Hx. congruence.
Qed.

Lemma add_badge_present b l : VStr b ∈ l -> add_badge b l = l.
Proof. intros H. unfold add_badge. apply existsb_is_str in H. by rewrite H. Qed.

Lemma apply_badge_update (d : doc) b l z :
  d !! "badges" = Some (VList l) ->
  d !! "points" = Some (VInt z) ->
  exists d', apply_update (badge_update b) d = Some d' /\
    d' !! "badges" = Some (VList (add_badge b l)) /\
    d' !! "points" = Some (VInt (z + 10)) /\
    d' !! "user_id" = d !! "user_id".
Proof.
  intros Hb Hp. unfold apply_update, badge_update, add_badge. simpl. rewrite Hb.
  destruct (existsb _ l); simpl.
  - rewrite Hp. eexists. split; [done|]. by simplify_map_eq.
  - rewrite lookup_insert_ne, Hp by done. eexists. split; [done|]. by simplify_map_eq.
Qed.

Lemma progress_ok_updated (d d' : doc) b l z :
  NoDup l ->
  d' !! "badges" = Some (VList (add_badge b l)) ->
  d' !! "points" = Some (VInt (z + 10)) ->
  progress_record_ok d'.
Proof. intros. eexists _, _. eauto using add_badge_NoDup. Qed.

Lemma is_user_iff u (d : doc) : is_user u d = true <-> d !! "user_id" = Some (VStr u).
Proof. apply on_string_eqb. Qed.

(** What [update_first] does to well-shaped progress records. *)
Lemma update_first_badge u b (l : list doc) :
  Forall progress_record_ok l ->
  match first_match (is_user u) l with
  | Some d =>
      exists d' l' bs z,
        update_first (is_user u) (badge_update b) l = Updated l' /\
        Forall progress_record_ok l' /\
        first_match (is_user u) l' = Some d' /\
        d !! "badges" = Some (VList bs) /\ d !! "points" = Some (VInt z) /\
        d' !! "badges" = Some (VList (add_badge b bs)) /\
        d' !! "points" = Some (VInt (z + 10))
  | None => update_first (is_user u) (badge_update b) l = NoMatch
  end.
Proof.
  unfold first_match. induction 1 as [|d l Hd Hl IH]; [done|].
  rewrite filter_cons. simpl. destruct (decide (is_user u d = true)) as [Hu|Hu].
  - rewrite Hu. simpl. destruct Hd as (bs & z & Hb & Hnd & Hp).
    destruct (apply_badge_update d b bs z Hb Hp) as (d' & -> & Hb' & Hp' & Hid).
    exists d', (d' :: l), bs, z. repeat split; try done.
    + constructor; [by eapply progress_ok_updated|done].
    + rewrite filter_cons. rewrite decide_True; [done|].
      apply is_user_iff. rewrite Hid. by apply is_user_iff.
  - apply not_true_is_false in Hu. rewrite Hu.
    destruct (head (filter _ l)) as [d0|].
    + destruct IH as (d' & l' & bs & z & -> & Hl' & Hf & Hrest).
      exists d', (d :: l'), bs, z. repeat split; try tauto.
      * by constructor.
      * rewrite filter_cons. rewrite decide_False; [done | congruence].
    + by rewrite IH.
Qed.

Lemma award_badge_existing env w u b d :
  progress_ok w ->
  progress_of u w = Some d ->
  exists w' d' bs z,
    award_badge env u b w = (Return (badge_response b), w') /\
    progress_ok w' /\
    progress_of u w' = Some d' /\
    d !! "badges" = Some (VList bs) /\ d !! "points" = Some (VInt z) /\
    d' !! "badges" = Some (VList (add_badge b bs)) /\
    d' !! "points" = Some (VInt (z + 10)).
Proof.
  intros Hok Hd. pose proof (update_first_badge u b _ Hok) as H.
  unfold progress_of in Hd. rewrite Hd in H.
  destruct H as (d' & l' & bs & z & Hup & Hl' & Hf & Hrest).
  unfold award_badge, update_one_upsert. rewrite compile_eq_query.
  unfold bind, gets. simpl. change (fun d0 : doc => on_string (String.eqb u) (d0 !! "user_id"))
    with (is_user u). rewrite Hup. simpl.
  eexists _, d', bs, z. split; [reflexivity|]. split; [exact Hl'|]. split; [exact Hf|]. tauto.
Qed.

Lemma award_badge_new env w u b :
  progress_ok w ->
  progress_of u w = None ->
  exists w',
    award_badge env u b w = (Return (badge_response b), w') /\
    progress_ok w' /\
    user_progress w' = user_progress w ++ [upserted u b (oid_count w)] /\
    progress_of u w' = Some (upserted u b (oid_count w)).
Proof.
  intros Hok Hd. pose proof (update_first_badge u b _ Hok) as H.
  unfold progress_of in Hd. rewrite Hd in H.
  unfold award_badge, update_one_upsert. rewrite compile_eq_query.
  unfold bind, gets. simpl. change (fun d0 : doc => on_string (String.eqb u) (d0 !! "user_id"))
    with (is_user u). rewrite H. simpl.
  eexists. split; [reflexivity|]. simpl. split; [|split; [reflexivity|]].
  - apply Forall_app. split; [exact Hok|]. constructor; [|constructor].
    exists [VStr b], 10. split; [done|]. split; [apply NoDup_singleton|done].
  - unfold progress_of, first_match in *. simpl. rewrite filter_app.
    destruct (filter _ (user_progress w)); [|done]. simpl.
    rewrite filter_cons, decide_True; [done|].
    apply is_user_iff. reflexivity.
Qed.

(** C4.  Every badge award adds 10 to the user's stored points, also when
    the badge was already held, and keeps [badges] a set: afterwards it holds
    the old badges and the awarded one, without duplicates, and an award of a
    badge already held leaves it as it was. *)
Theorem award_badge_adds_ten_points (env : Env) (w : World) (user_id badge_name : string) :
  progress_ok w ->
  exists w',
    award_badge env user_id badge_name w = (Return (badge_response badge_name), w') /\
    points_of user_id w' = points_of user_id w + 10 /\
    points_of user_id w <= points_of user_id w' /\
    (forall x, x ∈ badges_of user_id w' <-> x = VStr badge_name \/ x ∈ badges_of user_id w) /\
    NoDup (badges_of user_id w') /\
    (VStr badge_name ∈ badges_of user_id w ->
       badges_of user_id w' = badges_of user_id w) /\
    progress_ok w'.
Proof.
  intros Hok. destruct (progress_of user_id w) as [d|] eqn:Hd.
  - destruct (award_badge_existing env w user_id badge_name d Hok Hd)
      as (w' & d' & bs & z & Hrun & Hok' & Hd' & Hb & Hp & Hb' & Hp').
    assert (Hnd : NoDup bs).
    { apply first_match_Some in Hd as [Hin _].
      eapply Forall_forall in Hok; [|exact Hin].
      destruct Hok as (bs0 & z0 & Hb0 & Hnd & _). congruence. }
    exists w'. unfold points_of, badges_of. rewrite Hd, Hd', Hb, Hp, Hb', Hp'.
    split; [done|]. split; [done|]. split; [lia|].
    split; [apply add_badge_elem|]. split; [by apply add_badge_NoDup|].
    split; [apply add_badge_present | done].
  - destruct (award_badge_new env w user_id badge_name Hok Hd)
      as (w' & Hrun & Hok' & _ & Hd').
    exists w'. unfold points_of, badges_of. rewrite Hd, Hd'. simpl.
    split; [done|]. split; [done|]. split; [done|].
    split; [|split; [apply NoDup_singleton|split; [|done]]].
    + intros x. rewrite elem_of_nil. unfold upserted. simplify_map_eq.
      rewrite list_elem_of_singleton. tauto.
    + intros H. by apply elem_of_nil in H.
Qed.

Lemma award_badge_adds_ten_points_witness :
  exists w',
    award_badge sample_env "u1" "Explorer"
      (run sample_env [POST_user_badge "u1" "Explorer"] empty_world)
    = (Return (badge_response "Explorer"), w') /\
    points_of "u1" w' = 10 + 10 /\
    badges_of "u1" w' = [VStr "Explorer"].
Proof.
  destruct (award_badge_adds_ten_points sample_env
              (run sample_env [POST_user_badge "u1" "Explorer"] empty_world)
              "u1" "Explorer") as (w' & Hrun & Hpoints & _ & _ & _ & Hsame & _).
  - repeat constructor. exists [VStr "Explorer"], 10.
    split; [reflexivity|]. split; [apply NoDup_singleton | reflexivity].
  - exists w'. split; [exact Hrun|]. split; [exact Hpoints|].
    apply Hsame. left.
Defined.

(** C8.  When a user has no progress record, the badge award's upsert stores
    one made of the filter's [user_id] and the two updated fields, with the
    store's [_id]; it has no [id], no [created_at] and no [updated_at],
    unlike the record [get_user_progress] creates. *)
Theorem badge_upsert_record_lacks_base_fields (env : Env) (w : World)
    (user_id badge_name : string) :
  progress_ok w ->
  progress_of user_id w = None ->
  exists w' d,
    award_badge env user_id badge_name w = (Return (badge_response badge_name), w') /\
    user_progress w' = user_progress w ++ [d] /\
    dom d = {[ "_id"; "user_id"; "badges"; "points" ]} /\
    d !! "id" = None /\ d !! "created_at" = None /\ d !! "updated_at" = None.
Proof.
  intros Hok Hd.
  destruct (award_badge_new env w user_id badge_name Hok Hd) as (w' & Hrun & _ & Hup & _).
  exists w', (upserted user_id badge_name (oid_count w)).
  split; [done|]. split; [done|]. split; [|done].
  unfold upserted. rewrite !dom_insert_L, dom_singleton_L. set_solver.
Qed.

Lemma badge_upsert_record_lacks_base_fields_witness :
  exists w' d,
    award_badge sample_env "u1" "Explorer" empty_world
    = (Return (badge_response "Explorer"), w') /\
    user_progress w' = user_progress empty_world ++ [d] /\
    dom d = {[ "_id"; "user_id"; "badges"; "points" ]} /\
    d !! "id" = None /\ d !! "created_at" = None /\ d !! "updated_at" = None.
Proof.
  apply badge_upsert_record_lacks_base_fields; [constructor | reflexivity].
Defined.

(** C10.  The response of a badge award reports [points] 10, the increment of
    one call, whatever the user's stored total, which the same call raises
    to the old total plus 10. *)
Theorem award_badge_reports_the_increment (env : Env) (w : World)
    (user_id badge_name : string) :
  progress_ok w ->
  exists w',
    serve (award_badge env user_id badge_name) w =
    (Response 200 (VDict (dict
       [("message", VStr ("Badge '" +:+ badge_name +:+ "' awarded!"));
        ("points", VInt 10)])), w') /\
    points_of user_id w' = points_of user_id w + 10.
Proof.
  intros Hok. unfold serve. destruct (progress_of user_id w) as [d|] eqn:Hd.
  - destruct (award_badge_existing env w user_id badge_name d Hok Hd)
      as (w' & d' & bs & z & -> & _ & Hd' & _ & Hp & _ & Hp').
    exists w'. split; [done|]. unfold points_of. by rewrite Hd, Hd', Hp, Hp'.
  - destruct (award_badge_new env w user_id badge_name Hok Hd)
      as (w' & -> & _ & _ & Hd').
    exists w'. split; [done|]. unfold points_of. by rewrite Hd, Hd'.
Qed.

Lemma award_badge_reports_the_increment_witness :
  exists w',
    serve (award_badge sample_env "u1" "Scholar")
      (run sample_env [POST_user_badge "u1" "Explorer"; POST_user_badge "u1" "Explorer"]
         empty_world) =
    (Response 200 (VDict (dict
       [("message", VStr "Badge 'Scholar' awarded!"); ("points", VInt 10)])), w') /\
    points_of "u1" w' = 20 + 10.
Proof.
  apply (award_badge_reports_the_increment sample_env
           (run sample_env [POST_user_badge "u1" "Explorer"; POST_user_badge "u1" "Explorer"]
              empty_world) "u1" "Scholar").
  repeat constructor. exists [VStr "Explorer"], 20.
  split; [reflexivity|]. split; [apply NoDup_singleton | reflexivity].
Defined.

(** ** Search *)

Lemma filter_all_true {A} (l : list A) : filter (fun _ => true = true) l = l.
Proof.
  induction l as [|a l IH]; [done|]. rewrite filter_cons. simpl. by rewrite IH.
Qed.

Lemma to_list_all env c n w :
  to_list env None (cursor_limit n (find c QAll)) w =
  (Return (apply_limit n (coll_get c w)), w).
Proof.
  unfold to_list, bind, gets, ret. simpl. by rewrite filter_all_true.
Qed.

Lemma apply_limit_positive {A} n (l : list A) :
  0 < n -> apply_limit n l = take (Z.to_nat n) l.
Proof.
  intros Hn. unfold apply_limit. destruct (Z.eqb_spec n 0); [lia|].
  f_equal. lia.
Qed.

Lemma for_each_pure {A B} (f : A -> M B) (g : A -> B) (l : list A) w :
  Forall (fun a => forall w, f a w = (Return (g a), w)) l ->
  for_each f l w = (Return (g <$> l), w).
Proof.
  induction 1 as [|a l Ha _ IH]; [done|].
  simpl. unfold bind. by rewrite Ha, IH.
Qed.

Lemma getitem_field (d : doc) k w :
  is_Some (d !! k) -> getitem d k w = (Return (field d k), w).
Proof. intros [v Hv]. unfold getitem, field, dict_get. by rewrite Hv. Qed.

Lemma document_item_entry (d : doc) w :
  has_keys ["id"; "title"; "language"] d ->
  document_item d w = (Return (document_entry d), w).
Proof.
  intros H. apply Forall_cons in H as [H1 H]. apply Forall_cons in H as [H2 H].
  apply Forall_cons in H as [H3 _]. unfold document_item, bind.
  by rewrite !getitem_field.
Qed.

Lemma folk_song_item_entry (d : doc) w :
  has_keys ["id"; "title"; "region"] d ->
  folk_song_item d w = (Return (folk_song_entry d), w).
Proof.
  intros H. apply Forall_cons in H as [H1 H]. apply Forall_cons in H as [H2 H].
  apply Forall_cons in H as [H3 _]. unfold folk_song_item, bind.
  by rewrite !getitem_field.
Qed.

Lemma score_document_entry d : score (document_entry d) = (8 # 10)%Q.
Proof. reflexivity. Qed.

Lemma score_folk_song_entry d : score (folk_song_entry d) = (7 # 10)%Q.
Proof. reflexivity. Qed.

(** A list whose keys already descend is its own sort. *)
Lemma insert_desc_head {A} (key : A -> Q) x (l : list A) :
  Forall (fun y => Qle_bool (key y) (key x) = true) l ->
  insert_desc key x l = x :: l.
Proof. destruct 1 as [|y l Hy _]; [done|]. simpl. by rewrite Hy. Qed.

Lemma sorted_reverse_cons {A} (key : A -> Q) x (l : list A) :
  sorted_reverse key (x :: l) = insert_desc key x (sorted_reverse key l).
Proof. reflexivity. Qed.

Lemma sorted_reverse_two_tiers (docs songs : list doc) :
  sorted_reverse score ((document_entry <$> docs) ++ (folk_song_entry <$> songs)) =
  (document_entry <$> docs) ++ (folk_song_entry <$> songs).
Proof.
  induction docs as [|d docs IH].
  - rewrite fmap_nil, app_nil_l. induction songs as [|s songs IH]; [done|].
    rewrite fmap_cons, sorted_reverse_cons, IH.
    apply insert_desc_head. apply Forall_fmap, Forall_true. done.
  - rewrite fmap_cons, <- app_comm_cons, sorted_reverse_cons, IH.
    apply insert_desc_head. apply Forall_app.
    split; apply Forall_fmap, Forall_true; done.
Qed.

Lemma search_results_semantic env w request model :
  SearchRequest.search_type request = "semantic" ->
  embedding_model env = Some model ->
  Forall (has_keys ["id"; "title"; "language"]) (cultural_documents w) ->
  Forall (has_keys ["id"; "title"; "region"]) (folk_songs w) ->
  search_results env request w =
  (Return ((document_entry <$> apply_limit (SearchRequest.limit request) (cultural_documents w))
           ++ (folk_song_entry <$> apply_limit (SearchRequest.limit request) (folk_songs w))),
   w).
Proof.
  intros Htype Hmodel Hdocs Hsongs. unfold search_results, encode.
  rewrite Htype, Hmodel. simpl. unfold bind at 1. simpl.
  rewrite (run_bind _ _ _ _ _ (to_list_all env _ _ w)).
  rewrite (run_bind _ _ _ _ _ (to_list_all env _ _ w)). simpl.
  erewrite run_bind; cycle 1.
  { apply (for_each_pure _ document_entry). unfold apply_limit.
    destruct (_ =? 0); [|apply Forall_take];
      (eapply Forall_impl; [exact Hdocs|]); intros; by apply document_item_entry. }
  erewrite run_bind; cycle 1.
  { apply (for_each_pure _ folk_song_entry). unfold apply_limit.
    destruct (_ =? 0); [|apply Forall_take];
      (eapply Forall_impl; [exact Hsongs|]); intros; by apply folk_song_item_entry. }
  unfold ret. by rewrite sorted_reverse_two_tiers.
Qed.

(** C5 as amended.  With the embedding model loaded and [limit] at least 1, a
    semantic search returns the first [limit] documents, each scored 0.8,
    followed by the first [limit] folk songs, each scored 0.7, in stored
    order; neither the query nor its embedding enters the result.  The
    answer is a 200 with these items whenever the framework can encode
    them, as it can for the records the upload handlers store. *)
Theorem semantic_search_is_type_priority (env : Env) (w : World)
    (request : SearchRequest.t) (model : string -> list Q) :
  SearchRequest.search_type request = "semantic" ->
  embedding_model env = Some model ->
  0 < SearchRequest.limit request ->
  Forall (has_keys ["id"; "title"; "language"]) (cultural_documents w) ->
  Forall (has_keys ["id"; "title"; "region"]) (folk_songs w) ->
  let n := Z.to_nat (SearchRequest.limit request) in
  let documents := document_entry <$> take n (cultural_documents w) in
  let songs := folk_song_entry <$> take n (folk_songs w) in
  search_content env request w =
    (Return (search_response request (documents ++ songs)), w) /\
  (jsonable (search_response request (documents ++ songs)) = true ->
   serve (search_content env request) w =
     (Response 200 (search_response request (documents ++ songs)), w)) /\
  Forall (fun r : doc => r !! "score" = Some (VFloat (8 # 10))) documents /\
  Forall (fun r : doc => r !! "score" = Some (VFloat (7 # 10))) songs.
Proof.
  intros Htype Hmodel Hlimit Hdocs Hsongs n documents songs.
  assert (Hrun : search_content env request w =
                 (Return (search_response request (documents ++ songs)), w)).
  { unfold search_content, try_except.
    rewrite (run_bind _ _ _ _ _ (search_results_semantic env w request model
                                   Htype Hmodel Hdocs Hsongs)).
    by rewrite !apply_limit_positive. }
  split; [exact Hrun|]. split.
  - intros Hjson. by rewrite (serve_Return _ _ _ _ Hrun), (respond_jsonable _ Hjson).
  - split; apply Forall_fmap, Forall_true; done.
Qed.

Lemma has_keys_all_b ks (l : list doc) :
  forallb (fun d : doc => forallb (fun k => bool_decide (is_Some (d !! k))) ks) l = true ->
  Forall (has_keys ks) l.
Proof.
  intros H. apply Forall_forall. intros d Hd. apply Forall_forall. intros k Hk.
  rewrite forallb_forall in H. specialize (H d (proj1 (list_elem_of_In _ _) Hd)).
  rewrite forallb_forall in H. specialize (H k (proj1 (list_elem_of_In _ _) Hk)).
  by apply bool_decide_eq_true in H.
Qed.

Lemma semantic_search_is_type_priority_witness :
  let request := {| SearchRequest.query := "ancient Sanskrit wisdom";
                    SearchRequest.search_type := "semantic";
                    SearchRequest.language := None; SearchRequest.limit := 5 |} in
  serve (search_content sample_env request) two_uploads =
  (Response 200 (search_response request
     ((document_entry <$> take 5 (cultural_documents two_uploads)) ++
      (folk_song_entry <$> take 5 (folk_songs two_uploads)))), two_uploads).
Proof.
  intros request.
  refine (proj1 (proj2 (semantic_search_is_type_priority sample_env two_uploads request
                          (fun _ => [0%Q; 0%Q; 0%Q]) _ _ _ _ _)) _).
  - reflexivity.
  - reflexivity.
  - reflexivity.
  - apply has_keys_all_b. by_evaluation.
  - apply has_keys_all_b. by_evaluation.
  - by_evaluation.
Defined.

(** C5 as stated fails: a [limit] of 0 lifts the cap, so the search on the
    store with one document returns one item although at most 0 records
    were asked for. *)
Lemma semantic_search_limit_zero_is_unbounded :
  let request := {| SearchRequest.query := "ancient Sanskrit wisdom";
                    SearchRequest.search_type := "semantic";
                    SearchRequest.language := None; SearchRequest.limit := 0 |} in
  has_returned (search_results sample_env request one_upload) = true /\
  length (cultural_documents one_upload) = 1%nat /\
  length (returned [] (search_results sample_env request one_upload)) = 1%nat /\
  ~ (Z.of_nat (length (returned [] (search_results sample_env request one_upload)))
     <= SearchRequest.limit request).
Proof.
  cbv zeta. split; [by_evaluation|]. split; [by_evaluation|].
  assert (H : length (returned [] (search_results sample_env
                {| SearchRequest.query := "ancient Sanskrit wisdom";
                   SearchRequest.search_type := "semantic";
                   SearchRequest.language := None; SearchRequest.limit := 0 |}
                one_upload)) = 1%nat) by by_evaluation.
  split; [exact H|]. rewrite H. simpl. lia.
Qed.

Lemma compile_keyword_query env q :
  compile_query env (keyword_query q) =
  (fun m (d : doc) =>
     on_string m (d !! "title") ||
     (on_string m (d !! "original_text") || (on_string m (d !! "description") || false)))
  <$> regex_compile env q "i".
Proof.
  unfold keyword_query, compile_query, compile_field, compile_cond. simpl.
  by destruct (regex_compile env q "i").
Qed.

Lemma to_list_keyword env n q w :
  to_list env None (cursor_limit n (find db_cultural_documents (keyword_query q))) w =
  match regex_compile env q "i" with
  | Some m =>
      (Return (apply_limit n (filter (fun d => text_fields m d = true)
                                (cultural_documents w))), w)
  | None => (Raise (PyError "OperationFailure" (regex_error env q "i")), w)
  end.
Proof.
  unfold to_list. cbn [cur_query cursor_limit find cur_limit cur_coll].
  rewrite compile_keyword_query. destruct (regex_compile env q "i") as [m|] eqn:Hre.
  2: { cbn [fmap option_fmap option_map].
       unfold operation_failure, query_error, keyword_query, cond_error.
       cbn [omap list_omap snd]. by rewrite Hre. }
  cbn [fmap option_fmap option_map]. unfold bind, gets, ret. cbn [coll_get].
  rewrite (list_filter_iff _ (fun d => text_fields m d = true)); [done|].
  intros d. unfold text_fields. by rewrite orb_false_r, orb_assoc.
Qed.










(** ** Uploads *)

Lemma CulturalDocument_dict_fresh (d : CulturalDocument.t) :
  CulturalDocument.dict d !! "_id" = None /\
  CulturalDocument.dict d !! "id" = Some (VStr (CulturalDocument.id d)) /\
  CulturalDocument.dict d !! "title" = Some (VStr (CulturalDocument.title d)) /\
  CulturalDocument.dict d !! "language" = Some (VStr (CulturalDocument.language d)).
Proof. destruct d as [[]]. repeat split; reflexivity. Qed.

Lemma FolkSong_dict_fresh (d : FolkSong.t) :
  FolkSong.dict d !! "_id" = None /\
  FolkSong.dict d !! "id" = Some (VStr (FolkSong.id d)) /\
  FolkSong.dict d !! "audio_path" = Some (opt_str (FolkSong.audio_path d)).
Proof. destruct d as [[]]. repeat split; reflexivity. Qed.

Lemma save_upload_file_run env file w :
  save_upload_file env file w =
  if fs_creatable env (staged_path env file w)
  then (Return (staged_path env file w),
        set_tmp_files (<[staged_path env file w := file_bytes file]> (tmp_files w))
          (uuid4 env w).2)
  else (Raise (PyError "OSError" (staged_path env file w)), (uuid4 env w).2).
Proof.
  unfold save_upload_file, staged_path, bind. cbn [uuid4].
  destruct (fs_creatable env _); reflexivity.
Qed.

(** What a successful OCR upload has done. *)
Lemma upload_document_ocr_inv env file script_type language w body w1 :
  serve (upload_document_ocr env file script_type language) w = (Response 200 body, w1) ->
  exists d,
    body = VDict (dict
      [("document_id", VStr (uuid_of env (S (uuid_count w))));
       ("extracted_text", VStr ("[OCR Extracted Text from " +:+ filename file +:+ "]" +:+ nl +:+
                                "संस्कृत श्लोक या प्राचीन पाठ यहाँ होगा..."));
       ("script_type", VStr script_type);
       ("language", VStr language);
       ("status", VStr "success")]) /\
    d !! "id" = Some (VStr (uuid_of env (S (uuid_count w)))) /\
    d !! "title" = Some (VStr (filename file)) /\
    d !! "language" = Some (VStr language) /\
    cultural_documents w1 = cultural_documents w ++ [d] /\
    folk_songs w1 = folk_songs w /\ stories w1 = stories w /\
    user_progress w1 = user_progress w /\ llm_log w1 = llm_log w /\
    tmp_files w1 = delete (staged_path env file w)
                     (<[staged_path env file w := file_bytes file]> (tmp_files w)) /\
    d !! "_id" = Some (VOid (oid_count w)).
Proof.
  intros H. unfold upload_document_ocr in H. apply serve_guarded_200 in H as [H _].
  revert H. rewrite run_bind_case, save_upload_file_run.
  destruct (fs_creatable env (staged_path env file w)); [|discriminate].
  unfold encode. destruct (embedding_model env) as [model|]; cycle 1.
  { unfold bind, new_CulturalDocument, new_base, uuid4, utcnow, ret, raise.
    cbn. discriminate. }
  unfold bind, modify, ret, new_CulturalDocument, new_base, uuid4, utcnow, insert_one,
    with_object_id, os_remove, gets, modify, bind.
  cbn -[CulturalDocument.dict lookup insert delete String.append staged_path].
  rewrite (proj1 (CulturalDocument_dict_fresh _)).
  cbn -[CulturalDocument.dict lookup insert delete String.append staged_path].
  rewrite lookup_insert_eq.
  cbn -[CulturalDocument.dict lookup insert delete String.append staged_path].
  intros [= <- <-]. eexists. split; [reflexivity|].
  cbn -[CulturalDocument.dict lookup insert delete String.append staged_path].
  split; [|split; [|split; [|split; [reflexivity|]]]].
  4: { split; [reflexivity|]. split; [reflexivity|]. split; [reflexivity|].
       split; [reflexivity|]. split; [reflexivity|]. apply lookup_insert_eq. }
  all: rewrite lookup_insert_ne by done; reflexivity.
Qed.

(** What a successful song upload has done. *)
Lemma upload_folk_song_inv env file performer region language w body w1 :
  serve (upload_folk_song env file performer region language) w = (Response 200 body, w1) ->
  exists song,
    song !! "id" = Some (VStr (uuid_of env (S (uuid_count w)))) /\
    song !! "audio_path" = Some (VStr (staged_path env file w)) /\
    folk_songs w1 = folk_songs w ++ [song] /\
    cultural_documents w1 = cultural_documents w /\ stories w1 = stories w /\
    user_progress w1 = user_progress w /\ llm_log w1 = llm_log w /\
    tmp_files w1 = <[staged_path env file w := file_bytes file]> (tmp_files w) /\
    song !! "_id" = Some (VOid (oid_count w)).
Proof.
  intros H. unfold upload_folk_song in H. apply serve_guarded_200 in H as [H _].
  revert H. rewrite run_bind_case, save_upload_file_run.
  destruct (fs_creatable env (staged_path env file w)); [|discriminate].
  unfold encode. destruct (embedding_model env) as [model|]; cycle 1.
  { unfold bind, new_FolkSong, new_base, uuid4, utcnow, ret, raise.
    cbn. discriminate. }
  unfold bind, modify, ret, new_FolkSong, new_base, uuid4, utcnow, insert_one,
    with_object_id, gets, modify, bind.
  cbn -[FolkSong.dict lookup insert delete String.append staged_path].
  rewrite (proj1 (FolkSong_dict_fresh _)).
  cbn -[FolkSong.dict lookup insert delete String.append staged_path].
  intros [= <- <-]. eexists.
  cbn -[FolkSong.dict lookup insert delete String.append staged_path].
  split; [|split; [|split; [reflexivity|]]].
  3: { split; [reflexivity|]. split; [reflexivity|]. split; [reflexivity|].
       split; [reflexivity|]. split; [reflexivity|]. apply lookup_insert_eq. }
  all: rewrite lookup_insert_ne by done; reflexivity.
Qed.

(** C9 as amended.  A successful [/ocr/upload] has deleted the file it
    staged, leaving the upload directory as it was without that path; a
    successful [/speech/upload] keeps the staged file and stores its path as
    the song's [audio_path]. *)
Theorem staged_file_after_successful_upload (env : Env) (w : World) (file : UploadFile) :
  (forall script_type language body w',
      serve (upload_document_ocr env file script_type language) w = (Response 200 body, w') ->
      tmp_files w' !! staged_path env file w = None /\
      tmp_files w' = delete (staged_path env file w) (tmp_files w)) /\
  (forall performer region language body w',
      serve (upload_folk_song env file performer region language) w
        = (Response 200 body, w') ->
      tmp_files w' !! staged_path env file w = Some (file_bytes file) /\
      exists song,
        folk_songs w' = folk_songs w ++ [song] /\
        song !! "audio_path" = Some (VStr (staged_path env file w))).
Proof.
  split.
  - intros script_type language body w' H.
    apply upload_document_ocr_inv in H as (d & _ & _ & _ & _ & _ & _ & _ & _ & _ & -> & _).
    rewrite delete_insert_eq. split; [apply lookup_delete_eq | done].
  - intros performer region language body w' H.
    apply upload_folk_song_inv in H as (song & _ & Hpath & Hsongs & _ & _ & _ & _ & -> & _).
    split; [apply lookup_insert_eq | by exists song].
Qed.

Lemma staged_file_after_successful_upload_witness :
  tmp_files (serve (upload_document_ocr sample_env manuscript "devanagari" "sanskrit")
               empty_world).2
    !! staged_path sample_env manuscript empty_world = None /\
  tmp_files (serve (upload_folk_song sample_env lullaby "Asha" "Bengal" "bengali")
               empty_world).2
    !! staged_path sample_env lullaby empty_world = Some "RIFF".
Proof.
  destruct (staged_file_after_successful_upload sample_env empty_world manuscript)
    as [Hocr _].
  destruct (staged_file_after_successful_upload sample_env empty_world lullaby)
    as [_ Hsong].
  split.
  - refine (proj1 (Hocr "devanagari" "sanskrit" _ _ (serve_200 _ _ _ _))); by_evaluation.
  - refine (proj1 (Hsong "Asha" "Bengal" "bengali" _ _ (serve_200 _ _ _ _))); by_evaluation.
Defined.

(** C9 as stated fails: after a successful song upload the staged file is
    still in the upload directory. *)
Lemma song_upload_keeps_staged_file :
  status_of (serve (upload_folk_song sample_env lullaby "Asha" "Bengal" "bengali")
               empty_world).1 = 200 /\
  tmp_files (serve (upload_folk_song sample_env lullaby "Asha" "Bengal" "bengali")
               empty_world).2
    !! "/tmp/parampara_uploads/uuid-0_lullaby.wav" = Some "RIFF".
Proof. split; by_evaluation. Qed.

(** The slip beside it: an OCR upload that fails after staging (here for want
    of the embedding model) answers 500 and leaves the file behind. *)
Lemma failed_ocr_upload_leaves_staged_file :
  status_of (serve (upload_document_ocr env_without_embeddings manuscript
                      "devanagari" "sanskrit") empty_world).1 = 500 /\
  tmp_files (serve (upload_document_ocr env_without_embeddings manuscript
                      "devanagari" "sanskrit") empty_world).2
    !! "/tmp/parampara_uploads/uuid-0_abc" = Some "palm leaf scan".
Proof. split; by_evaluation. Qed.

(** ** What the handlers preserve *)

Section Preserves.

Context (R : World -> World -> Prop) `{!PreOrder R}.

Lemma preserves_ret {A} (a : A) : preserves R (ret a).
Proof. intros w. reflexivity. Qed.

Lemma preserves_raise {A} e : preserves R (@raise A e).
Proof. intros w. reflexivity. Qed.

Lemma preserves_gets {A} (f : World -> A) : preserves R (gets f).
Proof. intros w. reflexivity. Qed.

Lemma preserves_bind {A B} (m : M A) (k : A -> M B) :
  preserves R m -> (forall a, preserves R (k a)) -> preserves R (bind m k).
Proof.
  intros Hm Hk w. unfold bind. specialize (Hm w).
  destruct (m w) as [[a|e] w1]; [|done]. etrans; [exact Hm | apply Hk].
Qed.

Lemma preserves_try_except {A} (m : M A) (h : exn -> M A) :
  preserves R m -> (forall e, preserves R (h e)) -> preserves R (try_except m h).
Proof.
  intros Hm Hh w. unfold try_except. specialize (Hm w).
  destruct (m w) as [[a|e] w1]; [done|]. etrans; [exact Hm | apply Hh].
Qed.

Lemma preserves_for_each {A B} (f : A -> M B) (l : list A) :
  (forall a, preserves R (f a)) -> preserves R (for_each f l).
Proof.
  intros Hf. induction l as [|a l IH]; [apply preserves_ret|].
  simpl. apply preserves_bind; [apply Hf|]. intros b.
  apply preserves_bind; [apply IH|]. intros bs. apply preserves_ret.
Qed.

End Preserves.

#[local] Instance same_collections_preorder : PreOrder same_collections.
Proof.
  split.
  - by intros w c.
  - intros w1 w2 w3 H12 H23 c. by rewrite H23, H12.
Qed.

#[local] Instance grows_documents_preorder : PreOrder grows_documents.
Proof.
  split.
  - intros w. unfold grows_documents. reflexivity.
  - intros w1 w2 w3 H12 H23. unfold grows_documents in *. by etrans.
Qed.

#[local] Instance keeps_progress_ok_preorder : PreOrder keeps_progress_ok.
Proof. split; unfold keeps_progress_ok; [intros w | intros w1 w2 w3]; tauto. Qed.

(** Structural steps shared by the proofs below. *)
Ltac preserves_step :=
  first
    [ apply preserves_ret; apply _
    | apply preserves_raise; apply _
    | apply preserves_gets; apply _
    | apply preserves_bind; [apply _ | | intros ?]
    | apply preserves_try_except; [apply _ | | intros ?]
    | apply preserves_for_each; [apply _ | intros ?]
    | match goal with
      | |- preserves _ (match ?x with _ => _ end) => destruct x
      | |- preserves _ (if ?b then _ else _) => destruct b
      end ].

Lemma keeps_modify (f : World -> World) :
  (forall w c, coll_get c (f w) = coll_get c w) -> preserves same_collections (modify f).
Proof. intros H w c. apply H. Qed.

Lemma keeps_uuid4 env : preserves same_collections (uuid4 env).
Proof. by intros w []. Qed.

Lemma keeps_utcnow env : preserves same_collections (utcnow env).
Proof. by intros w []. Qed.

Lemma keeps_with_object_id d : preserves same_collections (with_object_id d).
Proof. intros w c. unfold with_object_id. destruct (d !! "_id"); by destruct c. Qed.

Lemma keeps_save_upload_file env f : preserves same_collections (save_upload_file env f).
Proof.
  unfold save_upload_file. cbv zeta.
  repeat first [apply keeps_uuid4 | apply keeps_modify; by intros w [] | preserves_step].
Qed.

Lemma keeps_os_remove path : preserves same_collections (os_remove path).
Proof.
  unfold os_remove.
  repeat first [apply keeps_modify; by intros w [] | preserves_step].
Qed.

Lemma keeps_encode env text : preserves same_collections (encode env text).
Proof. unfold encode. repeat preserves_step. Qed.

Lemma keeps_get_llm_client env provider model :
  preserves same_collections (get_llm_client env provider model).
Proof.
  unfold get_llm_client. repeat first [apply keeps_uuid4 | preserves_step].
Qed.

Lemma keeps_send_message env chat prompt :
  preserves same_collections (send_message env chat prompt).
Proof.
  unfold send_message.
  repeat first [apply keeps_modify; by intros w [] | preserves_step].
Qed.

Lemma keeps_find_one env c q : preserves same_collections (find_one env c q).
Proof. unfold find_one, operation_failure. repeat preserves_step. Qed.

Lemma keeps_to_list env len cur : preserves same_collections (to_list env len cur).
Proof. unfold to_list, operation_failure. repeat preserves_step. Qed.

Lemma keeps_getitem d k : preserves same_collections (getitem d k).
Proof. unfold getitem. repeat preserves_step. Qed.

Lemma keeps_loads env s : preserves same_collections (loads env s).
Proof. unfold loads. repeat preserves_step. Qed.

Lemma keeps_new_base env : preserves same_collections (new_base env).
Proof.
  unfold new_base. repeat first [apply keeps_uuid4 | apply keeps_utcnow | preserves_step].
Qed.

Lemma keeps_story_prompt env request d : preserves same_collections (story_prompt env request d).
Proof.
  unfold story_prompt. cbv zeta. repeat first [apply keeps_getitem | preserves_step].
Qed.

Lemma keeps_search_results env request :
  preserves same_collections (search_results env request).
Proof.
  unfold search_results, document_item, folk_song_item, keyword_item, truncated_content.
  cbv zeta.
  repeat first [apply keeps_encode | apply keeps_to_list | apply keeps_getitem
               | preserves_step].
Qed.

Create HintDb keeps discriminated.
#[local] Hint Resolve keeps_uuid4 keeps_utcnow keeps_with_object_id keeps_save_upload_file
  keeps_os_remove keeps_encode keeps_get_llm_client keeps_send_message keeps_find_one
  keeps_to_list keeps_getitem keeps_loads keeps_new_base keeps_story_prompt
  keeps_search_results : keeps.

Section Handlers_preserve.

Context (env : Env) (R : World -> World -> Prop) `{!PreOrder R}.
Context (R_bookkeeping : forall w w', same_collections w w' -> R w w').
Context (R_insert : forall c d, c <> db_user_progress -> preserves R (insert_one c d)).
Context (R_progress : forall u, preserves R (get_user_progress env u)).
Context (R_badge : forall u b, preserves R (award_badge env u b)).

Lemma preserves_reader {A} (m : M A) : preserves same_collections m -> preserves R m.
Proof. intros H w. apply R_bookkeeping, H. Qed.

Ltac handler_step :=
  first
    [ apply R_insert; discriminate
    | apply preserves_reader; solve [eauto with keeps]
    | preserves_step ].

(** Every handler preserves a relation that the bookkeeping, the inserts
    into the three content collections and the two ledger operations
    preserve. *)
Lemma handler_preserves (r : request) : preserves R (handler env r).
Proof.
  destruct r; cbn [handler].
  - unfold root. repeat handler_step.
  - unfold health_check. repeat handler_step.
  - unfold upload_document_ocr, new_CulturalDocument. cbv zeta. repeat handler_step.
  - unfold restore_text. repeat handler_step.
  - unfold translate_text. repeat handler_step.
  - unfold upload_folk_song, new_FolkSong. cbv zeta. repeat handler_step.
  - unfold generate_story, generate_story_body, generate_story_from, new_Story, load_local.
    cbv zeta. repeat handler_step.
  - unfold search_content. repeat handler_step.
  - apply R_progress.
  - apply R_badge.
  - unfold get_documents. repeat handler_step.
  - unfold get_folk_songs. repeat handler_step.
  - unfold vr_preview_placeholder. repeat handler_step.
Qed.

Lemma run_preserves (rs : list request) (w : World) : R w (run env rs w).
Proof.
  revert w. induction rs as [|r rs IH]; intros w; [reflexivity|].
  unfold run in *. simpl. etrans; [|apply IH].
  pose proof (handler_preserves r w) as H. unfold serve.
  destruct (handler env r w) as [[v|[]] w1]; exact H.
Qed.

End Handlers_preserve.

Lemma grows_insert_one c d : preserves grows_documents (insert_one c d).
Proof.
  intros w. unfold insert_one, with_object_id, bind, modify, grows_documents.
  destruct (d !! "_id"); destruct c; simpl; first [done | by apply prefix_app_r].
Qed.

Lemma grows_bookkeeping w w' : same_collections w w' -> grows_documents w w'.
Proof.
  intros H. unfold grows_documents. pose proof (H db_cultural_documents) as E.
  simpl in E. by rewrite E.
Qed.

Lemma grows_reader {A} (m : M A) :
  preserves same_collections m -> preserves grows_documents m.
Proof. intros H w. apply grows_bookkeeping, H. Qed.

Lemma grows_get_user_progress env u : preserves grows_documents (get_user_progress env u).
Proof.
  unfold get_user_progress, new_UserProgress.
  repeat first
    [ apply grows_insert_one
    | apply grows_reader; solve [eauto with keeps]
    | preserves_step ].
Qed.

Lemma grows_award_badge env u b : preserves grows_documents (award_badge env u b).
Proof.
  unfold award_badge, update_one_upsert, operation_failure, write_error.
  repeat first
    [ apply grows_insert_one
    | (intros w; unfold grows_documents; reflexivity)
    | preserves_step ].
Qed.

(** Stored documents are never removed or reordered: the collection only
    grows at its end. *)
Lemma run_grows_documents env rs w : grows_documents w (run env rs w).
Proof.
  apply run_preserves; try apply _.
  - apply grows_bookkeeping.
  - intros c d _. apply grows_insert_one.
  - apply grows_get_user_progress.
  - apply grows_award_badge.
Qed.

Lemma get_documents_run env w :
  get_documents env w = (Return (VList (VDict <$> take 100 (cultural_documents w))), w).
Proof.
  unfold get_documents. rewrite run_bind_case.
  unfold to_list. cbn. by rewrite filter_all_true.
Qed.

Lemma first_match_after_prefix (p : doc -> bool) l d l' :
  Forall (fun x => p x = false) l -> p d = true ->
  first_match p (l ++ d :: l') = Some d.
Proof.
  intros Hl Hd. unfold first_match. rewrite filter_app, filter_cons.
  rewrite decide_True by done.
  replace (filter (fun x => p x = true) l) with (@nil doc); [done|].
  symmetry. induction Hl as [|x l Hx _ IH]; [done|].
  rewrite filter_cons, decide_False by congruence. exact IH.
Qed.

(** C7.  After a successful OCR upload and any further requests, story
    generation with the returned [document_id] finds a stored document
    carrying that id (the uploaded record itself when the id was not in use
    before) and does not take the unknown-document path.  The listing does
    not show it: [get_documents] returns the stored records as they are,
    the uploaded one among them when fewer than 100 were stored before, and
    a stored record holds the store's [ObjectId] under [_id], which the
    framework cannot encode: [GET /documents] is answered 500. *)
Theorem uploaded_document_is_found_but_not_listed (env : Env) (w w1 : World)
    (file : UploadFile) (script_type language : string) (body : value)
    (rs : list request) :
  serve (upload_document_ocr env file script_type language) w = (Response 200 body, w1) ->
  exists id b d,
    body = VDict b /\ b !! "document_id" = Some (VStr id) /\
    d ∈ cultural_documents (run env rs w1) /\
    d !! "id" = Some (VStr id) /\ d !! "title" = Some (VStr (filename file)) /\
    (forall request,
        StoryRequest.document_id request = id ->
        exists d',
          d' !! "id" = Some (VStr id) /\
          generate_story_body env request (run env rs w1) =
          generate_story_from env request d' (run env rs w1)) /\
    (Forall (fun d0 : doc => d0 !! "id" <> Some (VStr id)) (cultural_documents w) ->
     forall request,
        StoryRequest.document_id request = id ->
        generate_story_body env request (run env rs w1) =
        generate_story_from env request d (run env rs w1)) /\
    ((length (cultural_documents w) < 100)%nat ->
     get_documents env (run env rs w1) =
       (Return (VList (VDict <$> take 100 (cultural_documents (run env rs w1)))),
        run env rs w1) /\
     d ∈ take 100 (cultural_documents (run env rs w1)) /\
     d !! "_id" = Some (VOid (oid_count w)) /\
     serve (get_documents env) (run env rs w1) =
       (Response 500 (VStr "Internal Server Error"), run env rs w1)).
Proof.
  intros Hup.
  apply upload_document_ocr_inv in Hup
    as (d & -> & Hid & Htitle & _ & Hdocs & _ & _ & _ & _ & _ & Hoid).
  destruct (run_grows_documents env rs w1) as [extra Hrun].
  rewrite Hdocs, <- app_assoc in Hrun. simpl in Hrun.
  eexists _, _, d. split; [reflexivity|]. split; [reflexivity|].
  assert (Hin : d ∈ cultural_documents (run env rs w1)).
  { rewrite Hrun. apply elem_of_app. right. left. }
  split; [exact Hin|]. split; [exact Hid|]. split; [exact Htitle|].
  split; [|split].
  - intros request Hreq. unfold generate_story_body.
    rewrite run_bind_case, find_one_eq. cbn [coll_get]. rewrite Hreq.
    destruct (first_match_is_Some
                (fun d0 : doc => on_string (String.eqb (uuid_of env (S (uuid_count w))))
                                   (d0 !! "id")) _ d Hin) as [d' Hd'].
    { by apply on_string_eqb. }
    rewrite Hd'. apply first_match_Some in Hd' as [_ Hd'].
    apply on_string_eqb in Hd'. rewrite (truthy_Some _ _ _ Hd'). by exists d'.
  - intros Hfresh request Hreq. unfold generate_story_body.
    rewrite run_bind_case, find_one_eq. cbn [coll_get]. rewrite Hreq, Hrun.
    rewrite first_match_after_prefix.
    + by rewrite (truthy_Some _ _ _ Hid).
    + eapply Forall_impl; [exact Hfresh|]. intros d0 Hd0. cbv beta in Hd0.
      destruct (on_string _ _) eqn:E; [|done]. by apply on_string_eqb in E.
    + by apply on_string_eqb.
  - intros Hlen.
    assert (Hlisted : d ∈ take 100 (cultural_documents (run env rs w1))).
    { rewrite Hrun. apply list_elem_of_lookup. exists (length (cultural_documents w)).
      rewrite lookup_take_lt by lia. by apply list_lookup_middle. }
    split; [apply get_documents_run|]. split; [exact Hlisted|]. split; [exact Hoid|].
    rewrite (serve_Return _ _ _ _ (get_documents_run env (run env rs w1))).
    rewrite respond_not_jsonable; [reflexivity|].
    apply (jsonable_list_elem _ (VDict d)); [by apply list_elem_of_fmap_2|].
    by apply (jsonable_stored_record d (oid_count w)).
Qed.

Lemma uploaded_document_is_found_but_not_listed_witness :
  exists id b (d : doc),
    body_of (serve (upload_document_ocr sample_env manuscript "devanagari" "sanskrit")
               empty_world).1 = VDict b /\
    b !! "document_id" = Some (VStr id) /\
    d !! "id" = Some (VStr id) /\
    d !! "_id" = Some (VOid (oid_count empty_world)) /\
    serve (get_documents sample_env)
      (run sample_env [POST_speech_upload lullaby "Asha" "Bengal" "bengali"]
         (serve (upload_document_ocr sample_env manuscript
                   "devanagari" "sanskrit") empty_world).2)
    = (Response 500 (VStr "Internal Server Error"),
       run sample_env [POST_speech_upload lullaby "Asha" "Bengal" "bengali"]
         (serve (upload_document_ocr sample_env manuscript
                   "devanagari" "sanskrit") empty_world).2).
Proof.
  destruct (uploaded_document_is_found_but_not_listed sample_env empty_world _ manuscript
              "devanagari" "sanskrit" _
              [POST_speech_upload lullaby "Asha" "Bengal" "bengali"]
              (serve_200 (upload_document_ocr sample_env manuscript "devanagari" "sanskrit")
                 empty_world ltac:(by_evaluation) ltac:(by_evaluation)))
    as (id & b & d & Hb & Hid & _ & Hd & _ & _ & _ & Hlist).
  destruct (Hlist ltac:(cbn; lia)) as (_ & _ & Hoid & H500).
  exists id, b, d. split; [exact Hb|]. split; [exact Hid|].
  split; [exact Hd|]. split; [exact Hoid | exact H500].
Defined.

(** ** The shape of the progress ledger is an invariant *)

Lemma progress_insert_other c d :
  c <> db_user_progress -> preserves keeps_progress_ok (insert_one c d).
Proof.
  intros Hc w. unfold insert_one, with_object_id, bind, modify, keeps_progress_ok, progress_ok.
  destruct (d !! "_id"); destruct c; simpl; done.
Qed.

Lemma progress_bookkeeping w w' : same_collections w w' -> keeps_progress_ok w w'.
Proof.
  intros H. unfold keeps_progress_ok, progress_ok.
  pose proof (H db_user_progress) as E. simpl in E. by rewrite E.
Qed.

Lemma progress_reader {A} (m : M A) :
  preserves same_collections m -> preserves keeps_progress_ok m.
Proof. intros H w. apply progress_bookkeeping, H. Qed.

Lemma UserProgress_dict_ok (p : UserProgress.t) :
  UserProgress.dict p !! "_id" = None /\
  (NoDup (UserProgress.badges p) -> progress_record_ok (UserProgress.dict p)).
Proof.
  destruct p as [[]]. split; [reflexivity|]. intros Hnd.
  eexists _, _. split; [reflexivity|]. split; [|reflexivity].
  simpl. assert (Inj eq eq VStr) by (by intros ?? [=]). by apply NoDup_fmap_2.
Qed.

Lemma progress_record_ok_oid d oid :
  progress_record_ok d -> progress_record_ok (<["_id" := VOid oid]> d).
Proof.
  intros (l & z & Hb & Hnd & Hp). exists l, z.
  by rewrite !lookup_insert_ne by done.
Qed.

Lemma progress_get_user_progress env u :
  preserves keeps_progress_ok (get_user_progress env u).
Proof.
  intros w Hok. unfold get_user_progress. rewrite run_bind_case, find_one_eq.
  destruct (truthy _) as [d|]; [exact Hok|].
  unfold new_UserProgress, new_base, bind, uuid4, utcnow, ret, insert_one,
    with_object_id, modify.
  cbn -[UserProgress.dict lookup insert].
  rewrite (proj1 (UserProgress_dict_ok _)).
  cbn -[UserProgress.dict lookup insert].
  apply Forall_app. split; [exact Hok|]. constructor; [|constructor].
  apply progress_record_ok_oid, UserProgress_dict_ok. constructor.
Qed.

Lemma progress_award_badge env u b : preserves keeps_progress_ok (award_badge env u b).
Proof.
  intros w Hok. destruct (progress_of u w) as [d|] eqn:Hd.
  - destruct (award_badge_existing env w u b d Hok Hd) as (w' & ? & ? & ? & -> & Hok' & _).
    exact Hok'.
  - destruct (award_badge_new env w u b Hok Hd) as (w' & -> & Hok' & _). exact Hok'.
Qed.

(** Starting from the empty store, the ledger keeps its shape whatever the
    requests: [badges] stays a duplicate-free array and [points] an integer
    in every progress record. *)
Lemma run_progress_ok env rs w : progress_ok w -> progress_ok (run env rs w).
Proof.
  apply (run_preserves env keeps_progress_ok).
  - apply progress_bookkeeping.
  - apply progress_insert_other.
  - apply progress_get_user_progress.
  - apply progress_award_badge.
Qed.

(** * Further properties of the handlers *)

(** ** The provider client *)

Lemma get_llm_client_missing env provider model w :
  or_default (EMERGENT_LLM_KEY env) EmptyString = EmptyString ->
  get_llm_client env provider model w
  = (Raise (HTTPException 500 "EMERGENT_LLM_KEY not found"), w).
Proof. intros H. unfold get_llm_client. by rewrite H. Qed.

(** X1.  Without a credential (unset or empty), [/restore] and [/translate]
    answer 500 with the configuration message wrapped by the handler; no
    message is sent to the provider and the world is unchanged. *)
Theorem missing_credential_is_500 (env : Env) (w : World) :
  or_default (EMERGENT_LLM_KEY env) EmptyString = EmptyString ->
  (forall request,
      serve (restore_text env request) w =
      (Response 500 (error_detail
         "Text restoration failed: 500: EMERGENT_LLM_KEY not found"), w)) /\
  (forall request,
      serve (translate_text env request) w =
      (Response 500 (error_detail
         "Translation failed: 500: EMERGENT_LLM_KEY not found"), w)).
Proof.
  intros Hkey. split; intros request.
  - unfold serve, restore_text, try_except.
    by rewrite (run_bind_raise _ _ _ _ _ (get_llm_client_missing env _ _ w Hkey)).
  - unfold serve, translate_text, try_except.
    by rewrite (run_bind_raise _ _ _ _ _ (get_llm_client_missing env _ _ w Hkey)).
Qed.

Lemma send_message_failure env chat prompt w e :
  provider_reply env (length (llm_log w)) (chat_provider chat) (chat_model chat) prompt
    = inl e ->
  send_message env chat prompt w =
  (Raise e, set_llm_log (llm_log w ++ [(chat_provider chat, chat_model chat, prompt)]) w).
Proof.
  intros Hreply. unfold send_message, bind, gets, modify. simpl. by rewrite Hreply.
Qed.


Lemma get_llm_client_run env provider model w :
  or_default (EMERGENT_LLM_KEY env) EmptyString <> EmptyString ->
  get_llm_client env provider model w =
  (Return {| api_key := or_default (EMERGENT_LLM_KEY env) EmptyString;
             session_id := uuid_of env (uuid_count w);
             system_message := "You are an expert in Indian cultural heritage, ancient texts, and linguistic restoration.";
             chat_provider := provider; chat_model := model |},
   (uuid4 env w).2).
Proof.
  intros Hkey. unfold get_llm_client.
  destruct (or_default _ _) as [|a k]; [done|]. reflexivity.
Qed.

(** X2.  When the provider call of [/restore] or [/translate] fails, the
    handler answers 500 with its message followed by the provider's error;
    exactly one message has been sent (no retry) and the store is as before. *)
Theorem provider_failure_is_500 (env : Env) (w : World) (e : exn) :
  or_default (EMERGENT_LLM_KEY env) EmptyString <> EmptyString ->
  (forall request,
      provider_reply env (length (llm_log w)) "anthropic" "claude-sonnet-4-20250514"
        (restoration_prompt request) = inl e ->
      exists w',
        serve (restore_text env request) w =
        (Response 500 (error_detail ("Text restoration failed: " +:+ str_exn e)), w') /\
        llm_log w' = llm_log w ++
          [("anthropic", "claude-sonnet-4-20250514", restoration_prompt request)] /\
        same_collections w w') /\
  (forall request,
      provider_reply env (length (llm_log w)) "gemini" "gemini-2.0-flash"
        (translation_prompt request) = inl e ->
      exists w',
        serve (translate_text env request) w =
        (Response 500 (error_detail ("Translation failed: " +:+ str_exn e)), w') /\
        llm_log w' = llm_log w ++
          [("gemini", "gemini-2.0-flash", translation_prompt request)] /\
        same_collections w w').
Proof.
  intros Hkey. split; intros request Hreply.
  - unfold serve, restore_text, try_except.
    rewrite (run_bind _ _ _ _ _ (get_llm_client_run env _ _ w Hkey)).
    erewrite run_bind_raise; [|by apply send_message_failure].
    eexists. split; [reflexivity|]. split; [reflexivity|]. by intros [].
  - unfold serve, translate_text, try_except.
    rewrite (run_bind _ _ _ _ _ (get_llm_client_run env _ _ w Hkey)).
    erewrite run_bind_raise; [|by apply send_message_failure].
    eexists. split; [reflexivity|]. split; [reflexivity|]. by intros [].
Qed.


Lemma missing_credential_is_500_witness :
  serve (restore_text env_without_key
           {| RestoreRequest.text := "dharmo rak.ati"; RestoreRequest.language := "sanskrit";
              RestoreRequest.context := None |}) empty_world =
  (Response 500 (error_detail
     "Text restoration failed: 500: EMERGENT_LLM_KEY not found"), empty_world).
Proof.
  refine (proj1 (missing_credential_is_500 env_without_key empty_world _) _).
  reflexivity.
Defined.

Lemma provider_failure_is_500_witness :
  exists w',
    serve (translate_text env_provider_down
             {| TranslateRequest.text := "namaste"; TranslateRequest.source_language := "hindi";
                TranslateRequest.target_language := "english" |}) empty_world =
    (Response 500 (error_detail ("Translation failed: " +:+ "timed out")), w') /\
    length (llm_log w') = 1%nat.
Proof.
  destruct (proj2 (provider_failure_is_500 env_provider_down empty_world
                     (PyError "TimeoutError" "timed out") ltac:(discriminate))
              {| TranslateRequest.text := "namaste";
                 TranslateRequest.source_language := "hindi";
                 TranslateRequest.target_language := "english" |} eq_refl)
    as (w' & Hrun & Hlog & _).
  exists w'. split; [exact Hrun|]. rewrite Hlog. reflexivity.
Defined.


(** ** Search: error and edge behaviour *)

(** X4.  A keyword query that the store rejects as a pattern ends in a 500
    whose detail is the handler's message followed by the driver's error
    text; nothing is returned and the world is unchanged.  The query goes
    into [$regex] unescaped. *)
Theorem rejected_pattern_is_500 (env : Env) (w : World) (request : SearchRequest.t) :
  SearchRequest.search_type request <> "semantic" ->
  regex_compile env (SearchRequest.query request) "i" = None ->
  serve (search_content env request) w =
  (Response 500 (error_detail
     ("Search failed: " +:+ regex_error env (SearchRequest.query request) "i")), w).
Proof.
  intros Htype Hre. unfold serve, search_content, try_except, search_results.
  destruct (String.eqb_spec (SearchRequest.search_type request) "semantic") as [|_]; [done|].
  rewrite !run_bind_case, to_list_keyword, Hre. reflexivity.
Qed.

Lemma rejected_pattern_is_500_witness :
  serve (search_content sample_env (keyword_request "(unclosed")) one_upload =
  (Response 500 (error_detail
     ("Search failed: " +:+ regex_error sample_env
                              (SearchRequest.query (keyword_request "(unclosed")) "i")),
   one_upload).
Proof. apply rejected_pattern_is_500; [discriminate | by_evaluation]. Defined.

(** X5.  Without the embedding model every semantic search ends in a 500
    before the store is read; the world is unchanged. *)
Theorem semantic_search_without_model_is_500 (env : Env) (w : World)
    (request : SearchRequest.t) :
  SearchRequest.search_type request = "semantic" ->
  embedding_model env = None ->
  serve (search_content env request) w =
  (Response 500 (error_detail
     "Search failed: 'NoneType' object has no attribute 'encode'"), w).
Proof.
  intros Htype Hmodel. unfold serve, search_content, try_except, search_results, encode.
  rewrite Htype, Hmodel. reflexivity.
Qed.

Lemma semantic_search_without_model_is_500_witness :
  serve (search_content env_without_embeddings
           {| SearchRequest.query := "folk songs"; SearchRequest.search_type := "semantic";
              SearchRequest.language := None; SearchRequest.limit := 5 |}) empty_world =
  (Response 500 (error_detail
     "Search failed: 'NoneType' object has no attribute 'encode'"), empty_world).
Proof. apply semantic_search_without_model_is_500; reflexivity. Defined.

Lemma str_len_take n s : (str_len (str_take n s) <= n)%nat.
Proof.
  revert n. induction s as [|c s IH]; intros n; cbn [str_take str_len]; [lia|].
  destruct (is_continuation c) eqn:Hc.
  - cbn [str_len]. rewrite Hc. apply IH.
  - destruct n as [|n]; cbn [str_len]; [lia|]. rewrite Hc. specialize (IH n). lia.
Qed.

Lemma str_len_app a b : str_len (a +:+ b) = (str_len a + str_len b)%nat.
Proof.
  induction a as [|c a IH]; [done|].
  simpl. destruct (is_continuation c); simpl in IH; rewrite IH; lia.
Qed.

Lemma str_take_all n s : (str_len s <= n)%nat -> str_take n s = s.
Proof.
  revert n. induction s as [|c s IH]; intros n; cbn [str_take str_len]; [done|].
  destruct (is_continuation c).
  - intros H. by rewrite IH.
  - destruct n as [|n]; [lia|]. intros H. rewrite IH by lia. done.
Qed.

(** X6.  Each item of a keyword search carries as [content] the first 200
    characters (code points) of the document's original text followed by an
    ellipsis, which is appended also to a text of at most 200 characters,
    then kept whole; the content is at most 203 characters long and the
    item has no [score]. *)
Theorem keyword_item_content_is_truncated (d r : doc) (w w' : World) :
  keyword_item d w = (Return r, w') ->
  exists s,
    dict_get d "original_text" (VStr EmptyString) = VStr s /\
    r !! "content" = Some (VStr (str_take 200 s +:+ "...")) /\
    (str_len (str_take 200 s +:+ "...") <= 203)%nat /\
    ((str_len s <= 200)%nat -> r !! "content" = Some (VStr (s +:+ "..."))) /\
    r !! "id" = d !! "id" /\ r !! "title" = d !! "title" /\
    r !! "score" = None.
Proof.
  unfold keyword_item, truncated_content, bind, getitem.
  destruct (d !! "id") as [i|] eqn:Hi; [|done].
  destruct (d !! "title") as [t|] eqn:Ht; [|done].
  destruct (dict_get d "original_text" (VStr EmptyString)) as [| | | |s| | | | |];
    try done.
  destruct (d !! "language") as [l|]; [|done].
  intros [= <- <-]. exists s. split; [done|]. split; [reflexivity|].
  split; [|split; [|split; [reflexivity|split; reflexivity]]].
  - rewrite str_len_app. pose proof (str_len_take 200 s) as Hlen.
    change (str_len "...") with 3%nat. lia.
  - intros Hs. rewrite <- (str_take_all 200 s Hs) at 2. reflexivity.
Qed.

Lemma keyword_item_content_is_truncated_witness :
  exists s,
    dict_get the_manuscript "original_text" (VStr EmptyString) = VStr s /\
    returned ∅ (keyword_item the_manuscript empty_world) !! "content"
      = Some (VStr (str_take 200 s +:+ "...")) /\
    (str_len (str_take 200 s +:+ "...") <= 203)%nat.
Proof.
  destruct (keyword_item_content_is_truncated the_manuscript
              (returned ∅ (keyword_item the_manuscript empty_world))
              empty_world (keyword_item the_manuscript empty_world).2
              (returned_run (keyword_item the_manuscript) ∅ empty_world
                 ltac:(by_evaluation)))
    as (s & Hs & Hc & Hl & _).
  exists s. split; [exact Hs|]. split; [exact Hc | exact Hl].
Defined.

(** ** Uploads: the failure paths *)

(** X7.  An upload that fails after the file was staged (here: the embedding
    model is missing) is answered 500 with the handler's message; the staged
    file stays in the upload directory and nothing is stored.  This holds
    for [/ocr/upload] and for [/speech/upload]. *)
Theorem failed_upload_leaves_staged_file (env : Env) (w : World) (file : UploadFile) :
  fs_creatable env (staged_path env file w) = true ->
  embedding_model env = None ->
  (forall script_type language, exists w',
      serve (upload_document_ocr env file script_type language) w =
      (Response 500 (error_detail
         "OCR processing failed: 'NoneType' object has no attribute 'encode'"), w') /\
      tmp_files w' = <[staged_path env file w := file_bytes file]> (tmp_files w) /\
      same_collections w w') /\
  (forall performer region language, exists w',
      serve (upload_folk_song env file performer region language) w =
      (Response 500 (error_detail
         "Speech processing failed: 'NoneType' object has no attribute 'encode'"), w') /\
      tmp_files w' = <[staged_path env file w := file_bytes file]> (tmp_files w) /\
      same_collections w w').
Proof.
  intros Hfs Hmodel. split.
  - intros script_type language.
    unfold serve, upload_document_ocr, try_except.
    rewrite run_bind_case, save_upload_file_run, Hfs.
    unfold encode. rewrite Hmodel.
    unfold bind, new_CulturalDocument, new_base, uuid4, utcnow, ret, raise.
    cbn -[lookup insert String.append staged_path].
    eexists. split; [reflexivity|]. split; [reflexivity|]. intros []; reflexivity.
  - intros performer region language.
    unfold serve, upload_folk_song, try_except.
    rewrite run_bind_case, save_upload_file_run, Hfs.
    unfold encode. rewrite Hmodel.
    unfold bind, new_FolkSong, new_base, uuid4, utcnow, ret, raise.
    cbn -[lookup insert String.append staged_path].
    eexists. split; [reflexivity|]. split; [reflexivity|]. intros []; reflexivity.
Qed.

Lemma failed_upload_leaves_staged_file_witness :
  exists w',
    serve (upload_folk_song env_without_embeddings lullaby "Asha" "Bengal" "bengali")
      empty_world =
    (Response 500 (error_detail
       "Speech processing failed: 'NoneType' object has no attribute 'encode'"), w') /\
    tmp_files w' =
      <[staged_path env_without_embeddings lullaby empty_world := file_bytes lullaby]>
        (tmp_files empty_world).
Proof.
  destruct (proj2 (failed_upload_leaves_staged_file env_without_embeddings empty_world
                     lullaby eq_refl eq_refl) "Asha" "Bengal" "bengali")
    as (w' & Hrun & Htmp & _).
  exists w'. split; [exact Hrun | exact Htmp].
Defined.

(** X8.  An upload whose file cannot be staged is answered 500, with or
    without an embedding model; no file is left behind and nothing is
    stored. *)
Theorem unstaged_upload_is_500 (env : Env) (w : World) (file : UploadFile) :
  fs_creatable env (staged_path env file w) = false ->
  (forall script_type language,
      status_of (serve (upload_document_ocr env file script_type language) w).1 = 500 /\
      tmp_files (serve (upload_document_ocr env file script_type language) w).2
        = tmp_files w /\
      same_collections w (serve (upload_document_ocr env file script_type language) w).2) /\
  (forall performer region language,
      status_of (serve (upload_folk_song env file performer region language) w).1 = 500 /\
      tmp_files (serve (upload_folk_song env file performer region language) w).2
        = tmp_files w /\
      same_collections w (serve (upload_folk_song env file performer region language) w).2).
Proof.
  intros Hfs. split.
  - intros script_type language.
    unfold serve, upload_document_ocr, try_except.
    rewrite run_bind_case, save_upload_file_run, Hfs.
    cbn -[String.append staged_path].
    split; [reflexivity|]. split; [reflexivity|]. intros []; reflexivity.
  - intros performer region language.
    unfold serve, upload_folk_song, try_except.
    rewrite run_bind_case, save_upload_file_run, Hfs.
    cbn -[String.append staged_path].
    split; [reflexivity|]. split; [reflexivity|]. intros []; reflexivity.
Qed.

Lemma unstaged_upload_is_500_witness :
  status_of (serve (upload_document_ocr env_read_only_tmp manuscript "devanagari" "sanskrit")
               empty_world).1 = 500 /\
  tmp_files (serve (upload_document_ocr env_read_only_tmp manuscript "devanagari" "sanskrit")
               empty_world).2 = tmp_files empty_world.
Proof.
  destruct (proj1 (unstaged_upload_is_500 env_read_only_tmp empty_world manuscript eq_refl)
              "devanagari" "sanskrit") as (Hs & Ht & _).
  split; [exact Hs | exact Ht].
Defined.

(** ** The progress ledger *)

Lemma fresh_progress_fields env u w :
  fresh_progress env u w !! "_id" = None /\
  fresh_progress env u w !! "user_id" = Some (VStr u) /\
  fresh_progress env u w !! "points" = Some (VInt 0) /\
  fresh_progress env u w !! "badges" = Some (VList []).
Proof.
  split; [reflexivity|]. split; [reflexivity|]. split; reflexivity.
Qed.

Lemma first_match_snoc (p : doc -> bool) l d :
  first_match p l = None -> p d = true -> first_match p (l ++ [d]) = Some d.
Proof.
  unfold first_match. intros Hl Hd. rewrite filter_app.
  destruct (filter _ l); [|done]. simpl.
  by rewrite filter_cons, decide_True.
Qed.

Lemma first_match_snoc_other (p : doc -> bool) l d :
  p d = false -> first_match p (l ++ [d]) = first_match p l.
Proof.
  unfold first_match. intros Hd. rewrite filter_app, filter_cons, decide_False by congruence.
  rewrite filter_nil. by rewrite app_nil_r.
Qed.

Lemma get_user_progress_found env u w d :
  progress_of u w = Some d -> get_user_progress env u w = (Return (VDict d), w).
Proof.
  intros Hd. unfold get_user_progress. rewrite run_bind_case, find_one_eq.
  change (first_match _ (coll_get db_user_progress w)) with (progress_of u w).
  rewrite Hd. apply first_match_Some in Hd as [_ Hu]. apply is_user_iff in Hu.
  by rewrite (truthy_Some _ _ _ Hu).
Qed.

(** X9.  The first read of a user's progress creates the record: the
    request is answered 200 with the zero record (no badges, no points)
    with fresh base fields and without [_id], and that record is appended
    to the ledger under the store's [_id]. *)
Theorem first_progress_read_creates_zero_record (env : Env) (w : World) (u : string) :
  progress_of u w = None ->
  exists w',
    serve (get_user_progress env u) w =
      (Response 200 (VDict (fresh_progress env u w)), w') /\
    fresh_progress env u w !! "_id" = None /\
    user_progress w' =
      user_progress w ++ [<["_id" := VOid (oid_count w)]> (fresh_progress env u w)] /\
    progress_of u w' = Some (<["_id" := VOid (oid_count w)]> (fresh_progress env u w)) /\
    points_of u w' = 0 /\ badges_of u w' = [].
Proof.
  intros Hnone.
  assert (Hrun : exists w',
    get_user_progress env u w = (Return (VDict (fresh_progress env u w)), w') /\
    user_progress w' =
      user_progress w ++ [<["_id" := VOid (oid_count w)]> (fresh_progress env u w)]).
  { unfold get_user_progress. rewrite run_bind_case, find_one_eq.
    change (first_match _ (coll_get db_user_progress w)) with (progress_of u w).
    rewrite Hnone. cbn [truthy].
    unfold new_UserProgress, new_base, bind, uuid4, utcnow, ret, insert_one,
      with_object_id, modify.
    cbn -[UserProgress.dict lookup insert].
    rewrite (proj1 (UserProgress_dict_ok _)).
    cbn -[UserProgress.dict lookup insert].
    eexists. split; reflexivity. }
  destruct Hrun as (w' & Hrun & Hledger). exists w'.
  destruct (fresh_progress_fields env u w) as (Hid & Hu & Hp & Hb).
  assert (Hfound : progress_of u w' =
            Some (<["_id" := VOid (oid_count w)]> (fresh_progress env u w))).
  { unfold progress_of. rewrite Hledger. apply first_match_snoc; [exact Hnone|].
    apply is_user_iff. by rewrite lookup_insert_ne. }
  split; [|split; [exact Hid|split; [exact Hledger|split; [exact Hfound|split]]]].
  - rewrite (serve_Return _ _ _ _ Hrun). reflexivity.
  - unfold points_of. rewrite Hfound. by rewrite lookup_insert_ne, Hp.
  - unfold badges_of. rewrite Hfound. by rewrite lookup_insert_ne, Hb.
Qed.

Lemma first_progress_read_creates_zero_record_witness :
  exists w',
    serve (get_user_progress sample_env "u1") one_upload =
      (Response 200 (VDict (fresh_progress sample_env "u1" one_upload)), w') /\
    points_of "u1" w' = 0 /\ badges_of "u1" w' = [].
Proof.
  destruct (first_progress_read_creates_zero_record sample_env one_upload "u1"
              ltac:(by_evaluation)) as (w' & Hrun & _ & _ & _ & Hp & Hb).
  exists w'. split; [exact Hrun|]. split; [exact Hp | exact Hb].
Defined.

(** X10.  Reading the progress of a user who has a record writes nothing,
    however often it is repeated.  The handler returns the stored record as
    it is; since a stored record holds the store's [ObjectId] under [_id],
    which the framework cannot encode, the request is answered 500: a 200
    is the answer only for a record the framework can encode. *)
Theorem progress_read_of_known_user_is_pure (env : Env) (w : World) (u : string) (d : doc) :
  progress_of u w = Some d ->
  serve (get_user_progress env u) w =
    (if jsonable (VDict d) then Response 200 (VDict d)
     else Response 500 (VStr "Internal Server Error"), w) /\
  (forall i, d !! "_id" = Some (VOid i) ->
     serve (get_user_progress env u) w = (Response 500 (VStr "Internal Server Error"), w)) /\
  forall n, run env (replicate n (GET_user_progress u)) w = w.
Proof.
  intros Hd. pose proof (get_user_progress_found env u w d Hd) as Hrun.
  split; [by rewrite (serve_Return _ _ _ _ Hrun)|]. split.
  - intros i Hi. rewrite (serve_Return _ _ _ _ Hrun).
    by rewrite (respond_not_jsonable _ (jsonable_stored_record d i Hi)).
  - induction n as [|n IH]; [reflexivity|].
    unfold run in *. cbn [replicate foldl handler].
    assert (E : (serve (get_user_progress env u) w).2 = w).
    { by rewrite serve_snd, Hrun. }
    rewrite E. exact IH.
Qed.

Lemma progress_read_of_known_user_is_pure_witness :
  serve (get_user_progress sample_env "u1")
    (run sample_env [GET_user_progress "u1"] empty_world)
  = (Response 500 (VStr "Internal Server Error"),
     run sample_env [GET_user_progress "u1"] empty_world).
Proof.
  refine (proj1 (proj2 (progress_read_of_known_user_is_pure sample_env
                          (run sample_env [GET_user_progress "u1"] empty_world) "u1"
                          _ (found_default _ ∅ _))) 0%nat _); by_evaluation.
Defined.

Lemma apply_update_badge_other b k (d d' : doc) :
  k <> "badges" -> k <> "points" ->
  apply_update (badge_update b) d = Some d' -> d' !! k = d !! k.
Proof.
  intros Hb Hp. unfold apply_update, badge_update. cbn [foldl addToSet inc].
  unfold apply_addToSet. cbn [mbind option_bind fst snd].
  destruct (d !! "badges") as [v|] eqn:Ebadges.
  - destruct v as [| | | | | | |l| |]; try discriminate.
    destruct (existsb (is_str b) l).
    + unfold apply_inc. cbn [mbind option_bind fst snd].
      destruct (d !! "points") as [[]|]; try discriminate;
        intros [= <-]; by rewrite lookup_insert_ne.
    + unfold apply_inc. cbn [mbind option_bind fst snd].
      rewrite (lookup_insert_ne d "badges" "points") by done.
      destruct (d !! "points") as [[]|]; try discriminate;
        intros [= <-]; by rewrite !lookup_insert_ne.
  - unfold apply_inc. cbn [mbind option_bind fst snd].
    rewrite (lookup_insert_ne d "badges" "points") by done.
    destruct (d !! "points") as [[]|]; try discriminate;
      intros [= <-]; by rewrite !lookup_insert_ne.
Qed.

Lemma apply_update_badge_user_id b (d d' : doc) :
  apply_update (badge_update b) d = Some d' -> d' !! "user_id" = d !! "user_id".
Proof. by apply apply_update_badge_other. Qed.

Lemma first_match_cons (p : doc -> bool) d l :
  first_match p (d :: l) = if p d then Some d else first_match p l.
Proof.
  unfold first_match. rewrite filter_cons.
  destruct (p d) eqn:E; [by rewrite decide_True | by rewrite decide_False].
Qed.

Lemma is_user_other u u' (d : doc) :
  u' <> u -> d !! "user_id" = Some (VStr u) -> is_user u' d = false.
Proof.
  intros Hne Hd. destruct (is_user u' d) eqn:E; [|done].
  apply is_user_iff in E. congruence.
Qed.

Lemma update_first_frame u b u' (l : list doc) :
  u' <> u ->
  match update_first (is_user u) (badge_update b) l with
  | Updated l' =>
      first_match (is_user u') l' = first_match (is_user u') l /\ length l' = length l
  | _ => True
  end.
Proof.
  intros Hne. induction l as [|d l IH]; [done|]. cbn [update_first].
  destruct (is_user u d) eqn:Hu.
  - destruct (apply_update (badge_update b) d) as [d'|] eqn:Hup; [|done].
    apply is_user_iff in Hu. pose proof (apply_update_badge_user_id _ _ _ Hup) as Hid.
    rewrite !first_match_cons.
    rewrite (is_user_other u u' d Hne Hu), (is_user_other u u' d' Hne) by congruence.
    done.
  - destruct (update_first (is_user u) (badge_update b) l) as [l'| |]; [|done|done].
    destruct IH as [IH Hlen]. rewrite !first_match_cons, IH. cbn [length].
    by rewrite Hlen.
Qed.

Lemma award_badge_ledger env u b w :
  match update_first (is_user u) (badge_update b) (user_progress w) with
  | Updated l' => user_progress (award_badge env u b w).2 = l'
  | NoMatch =>
      user_progress (award_badge env u b w).2 =
      user_progress w ++
        [<["_id" := VOid (oid_count w)]>
           (<["points" := VInt 10]> (<["badges" := VList [VStr b]]> {[ "user_id" := VStr u ]}))]
  | WriteError => (award_badge env u b w).2 = w
  end.
Proof.
  unfold award_badge, update_one_upsert. rewrite compile_eq_query.
  unfold bind, gets. cbn [coll_get].
  change (fun d0 : doc => on_string (String.eqb u) (d0 !! "user_id")) with (is_user u).
  destruct (update_first (is_user u) (badge_update b) (user_progress w)); reflexivity.
Qed.

(** X11.  A badge award touches the record of its user only: the record of
    every other user is as before, whatever the state of the ledger. *)
Theorem award_badge_leaves_other_users (env : Env) (w : World) (u b u' : string) :
  u' <> u ->
  progress_of u' (award_badge env u b w).2 = progress_of u' w /\
  points_of u' (award_badge env u b w).2 = points_of u' w /\
  badges_of u' (award_badge env u b w).2 = badges_of u' w.
Proof.
  intros Hne.
  assert (H : progress_of u' (award_badge env u b w).2 = progress_of u' w).
  { unfold progress_of. pose proof (award_badge_ledger env u b w) as Hl.
    pose proof (update_first_frame u b u' (user_progress w) Hne) as Hf.
    destruct (update_first (is_user u) (badge_update b) (user_progress w)).
    - rewrite Hl. apply Hf.
    - rewrite Hl. apply first_match_snoc_other, (is_user_other u); [exact Hne|].
      by rewrite !lookup_insert_ne.
    - by rewrite Hl. }
  split; [exact H|]. unfold points_of, badges_of. by rewrite H.
Qed.

Lemma award_badge_leaves_other_users_witness :
  points_of "u2"
    (award_badge sample_env "u1" "Explorer"
       (run sample_env [POST_user_badge "u2" "Scholar"] empty_world)).2
  = points_of "u2" (run sample_env [POST_user_badge "u2" "Scholar"] empty_world).
Proof.
  refine (proj1 (proj2 (award_badge_leaves_other_users sample_env
                          (run sample_env [POST_user_badge "u2" "Scholar"] empty_world)
                          "u1" "Explorer" "u2" _))).
  discriminate.
Defined.

Lemma add_badge_twice b l : add_badge b (add_badge b l) = add_badge b l.
Proof. apply add_badge_present, add_badge_elem. by left. Qed.

Lemma award_badge_step env w u b :
  progress_ok w ->
  progress_ok (award_badge env u b w).2 /\
  points_of u (award_badge env u b w).2 = points_of u w + 10 /\
  badges_of u (award_badge env u b w).2 = add_badge b (badges_of u w).
Proof.
  intros Hok. destruct (progress_of u w) as [d|] eqn:Hd.
  - destruct (award_badge_existing env w u b d Hok Hd)
      as (w' & d' & bs & z & Hrun & Hok' & Hd' & Hb & Hp & Hb' & Hp').
    rewrite Hrun. cbn [snd]. unfold points_of, badges_of.
    by rewrite Hd, Hd', Hb, Hp, Hb', Hp'.
  - destruct (award_badge_new env w u b Hok Hd) as (w' & Hrun & Hok' & _ & Hd').
    rewrite Hrun. cbn [snd]. unfold points_of, badges_of. rewrite Hd, Hd'.
    split; [exact Hok'|]. unfold upserted. by simplify_map_eq.
Qed.

(** X12.  Awards accumulate without a cap: after [n] awards of the same
    badge the user has [10 * n] more points, while the badge is held once. *)
Theorem repeated_awards_accumulate (env : Env) (w : World) (u b : string) (n : nat) :
  progress_ok w ->
  points_of u (run env (replicate n (POST_user_badge u b)) w)
    = points_of u w + 10 * Z.of_nat n /\
  badges_of u (run env (replicate (S n) (POST_user_badge u b)) w)
    = add_badge b (badges_of u w).
Proof.
  intros Hok.
  assert (H : forall m w, progress_ok w ->
    points_of u (run env (replicate m (POST_user_badge u b)) w)
      = points_of u w + 10 * Z.of_nat m /\
    badges_of u (run env (replicate m (POST_user_badge u b)) w)
      = match m with O => badges_of u w | S _ => add_badge b (badges_of u w) end).
  { clear w Hok. intros m. induction m as [|m IH]; intros w Hok.
    - split; [|reflexivity]. unfold run. cbn [replicate foldl]. lia.
    - destruct (award_badge_step env w u b Hok) as (Hok' & Hp & Hb).
      destruct (IH _ Hok') as (IHp & IHb).
      unfold run in *. cbn [replicate foldl handler]. rewrite serve_snd.
      rewrite IHp, IHb, Hp, Hb. split; [lia|].
      destruct m; [reflexivity | apply add_badge_twice]. }
  split; [exact (proj1 (H n w Hok)) | exact (proj2 (H (S n) w Hok))].
Qed.

Lemma repeated_awards_accumulate_witness :
  points_of "u1" (run sample_env (replicate 3 (POST_user_badge "u1" "Explorer")) empty_world)
  = points_of "u1" empty_world + 10 * Z.of_nat 3.
Proof.
  refine (proj1 (repeated_awards_accumulate sample_env empty_world "u1" "Explorer" 3 _)).
  constructor.
Defined.

(** ** What no request does *)

Lemma award_badge_content env u b w :
  cultural_documents (award_badge env u b w).2 = cultural_documents w /\
  folk_songs (award_badge env u b w).2 = folk_songs w /\
  stories (award_badge env u b w).2 = stories w.
Proof.
  unfold award_badge, update_one_upsert. rewrite compile_eq_query.
  unfold bind, gets. cbn [coll_get].
  destruct (update_first _ (badge_update b) (user_progress w));
    (split; [reflexivity|]; split; reflexivity).
Qed.

Lemma update_first_length u b (l : list doc) :
  match update_first (is_user u) (badge_update b) l with
  | Updated l' => length l' = length l
  | _ => True
  end.
Proof.
  induction l as [|d l IH]; [done|]. cbn [update_first].
  destruct (is_user u d).
  - by destruct (apply_update (badge_update b) d).
  - destruct (update_first (is_user u) (badge_update b) l); [|done|done].
    cbn [length]. by rewrite IH.
Qed.

#[local] Instance grows_store_preorder : PreOrder grows_store.
Proof.
  split.
  - intros w. unfold grows_store. split; [reflexivity|]. split; [reflexivity|].
    split; [reflexivity | lia].
  - intros w1 w2 w3 (H1 & H2 & H3 & H4) (K1 & K2 & K3 & K4). unfold grows_store.
    split; [by etrans|]. split; [by etrans|]. split; [by etrans | lia].
Qed.

Lemma store_insert_one c d : preserves grows_store (insert_one c d).
Proof.
  intros w. unfold insert_one, with_object_id, bind, modify, grows_store.
  destruct (d !! "_id"); destruct c; cbn;
    (split; [first [reflexivity | by apply prefix_app_r]|];
     split; [first [reflexivity | by apply prefix_app_r]|];
     split; [first [reflexivity | by apply prefix_app_r]|]);
    rewrite ?length_app; cbn; lia.
Qed.

Lemma store_bookkeeping w w' : same_collections w w' -> grows_store w w'.
Proof.
  intros H. unfold grows_store.
  pose proof (H db_cultural_documents) as E1. pose proof (H db_folk_songs) as E2.
  pose proof (H db_stories) as E3. pose proof (H db_user_progress) as E4.
  cbn in E1, E2, E3, E4. rewrite E1, E2, E3, E4.
  split; [reflexivity|]. split; [reflexivity|]. split; [reflexivity | lia].
Qed.

Lemma store_reader {A} (m : M A) :
  preserves same_collections m -> preserves grows_store m.
Proof. intros H w. apply store_bookkeeping, H. Qed.

Lemma store_get_user_progress env u : preserves grows_store (get_user_progress env u).
Proof.
  unfold get_user_progress, new_UserProgress.
  repeat first
    [ apply store_insert_one
    | apply store_reader; solve [eauto with keeps]
    | preserves_step ].
Qed.

Lemma store_award_badge env u b : preserves grows_store (award_badge env u b).
Proof.
  intros w. unfold grows_store.
  destruct (award_badge_content env u b w) as (-> & -> & ->).
  split; [reflexivity|]. split; [reflexivity|]. split; [reflexivity|].
  pose proof (award_badge_ledger env u b w) as Hl.
  pose proof (update_first_length u b (user_progress w)) as Hlen.
  destruct (update_first (is_user u) (badge_update b) (user_progress w)).
  - rewrite Hl. lia.
  - rewrite Hl, length_app. lia.
  - rewrite Hl. lia.
Qed.

(** X13.  No request removes or reorders what is stored: whatever the
    requests, the documents, songs and stories present before are still
    there, in their order and unchanged, at the start of their collections,
    and the ledger has not lost a record.  The API has no delete and no
    update of content. *)
Theorem nothing_stored_is_lost (env : Env) (rs : list request) (w : World) :
  grows_store w (run env rs w).
Proof.
  apply run_preserves; try apply _.
  - apply store_bookkeeping.
  - intros c d _. apply store_insert_one.
  - apply store_get_user_progress.
  - apply store_award_badge.
Qed.

Lemma reader_preserves env (r : request) :
  reads_only r = true -> preserves same_collections (handler env r).
Proof.
  destruct r; try discriminate; intros _; cbn [handler].
  - unfold root. repeat preserves_step.
  - unfold health_check. repeat first [solve [eauto with keeps] | preserves_step].
  - unfold restore_text. repeat first [solve [eauto with keeps] | preserves_step].
  - unfold translate_text. repeat first [solve [eauto with keeps] | preserves_step].
  - unfold search_content. repeat first [solve [eauto with keeps] | preserves_step].
  - unfold get_documents. repeat first [solve [eauto with keeps] | preserves_step].
  - unfold get_folk_songs. repeat first [solve [eauto with keeps] | preserves_step].
  - unfold vr_preview_placeholder. repeat preserves_step.
Qed.

(** X14.  Restoration, translation, search, the two listings, the health
    check, the welcome and the preview never write to the store: after any
    sequence of such requests the four collections are as before.  (The
    remaining GET, the progress read, is not among them: it may insert.) *)
Theorem readers_leave_the_store (env : Env) (rs : list request) (w : World) :
  forallb reads_only rs = true ->
  same_collections w (run env rs w).
Proof.
  revert w. induction rs as [|r rs IH]; intros w Hrs; [reflexivity|].
  cbn [forallb] in Hrs. apply andb_prop in Hrs as [Hr Hrs].
  unfold run in *. cbn [foldl]. etrans; [|apply IH, Hrs].
  rewrite serve_snd. apply (reader_preserves env r Hr).
Qed.

Lemma readers_leave_the_store_witness :
  same_collections one_upload
    (run sample_env [POST_search (keyword_request "a.c"); GET_documents;
                     POST_restore {| RestoreRequest.text := "dharmo rak.ati";
                                     RestoreRequest.language := "sanskrit";
                                     RestoreRequest.context := None |}] one_upload).
Proof. apply readers_leave_the_store. reflexivity. Defined.

(** ** Every stored record carries the store's identifier *)

#[local] Instance keeps_stored_with_id_preorder : PreOrder keeps_stored_with_id.
Proof. split; unfold keeps_stored_with_id; [intros w | intros w1 w2 w3]; tauto. Qed.

Lemma ids_insert_one c d : preserves keeps_stored_with_id (insert_one c d).
Proof.
  intros w Hok c'. specialize (Hok c') as Hc.
  unfold insert_one, with_object_id, bind, modify.
  destruct (d !! "_id") as [i|] eqn:Hid; destruct c, c'; cbn; try exact Hc;
    (apply Forall_app; split; [exact Hc|]; constructor; [|constructor]).
  all: first [by rewrite Hid | by rewrite lookup_insert_eq].
Qed.

Lemma ids_bookkeeping w w' : same_collections w w' -> keeps_stored_with_id w w'.
Proof. intros H Hok c. rewrite H. apply Hok. Qed.

Lemma ids_reader {A} (m : M A) :
  preserves same_collections m -> preserves keeps_stored_with_id m.
Proof. intros H w. apply ids_bookkeeping, H. Qed.

Lemma ids_get_user_progress env u : preserves keeps_stored_with_id (get_user_progress env u).
Proof.
  unfold get_user_progress, new_UserProgress.
  repeat first
    [ apply ids_insert_one
    | apply ids_reader; solve [eauto with keeps]
    | preserves_step ].
Qed.

Lemma update_first_ids u b (l : list doc) :
  Forall (fun d : doc => is_Some (d !! "_id")) l ->
  match update_first (is_user u) (badge_update b) l with
  | Updated l' => Forall (fun d : doc => is_Some (d !! "_id")) l'
  | _ => True
  end.
Proof.
  induction 1 as [|d l Hd Hl IH]; [done|]. cbn [update_first].
  destruct (is_user u d).
  - destruct (apply_update (badge_update b) d) as [d'|] eqn:Hup; [|done].
    constructor; [|exact Hl].
    by rewrite (apply_update_badge_other b "_id" d d').
  - destruct (update_first (is_user u) (badge_update b) l); [|done|done].
    by constructor.
Qed.

Lemma ids_award_badge env u b : preserves keeps_stored_with_id (award_badge env u b).
Proof.
  intros w Hok c.
  destruct (award_badge_content env u b w) as (E1 & E2 & E3).
  pose proof (award_badge_ledger env u b w) as Hl.
  pose proof (update_first_ids u b (user_progress w) (Hok db_user_progress)) as Hids.
  destruct c; cbn [coll_get];
    [rewrite E1; apply (Hok db_cultural_documents)
    |rewrite E2; apply (Hok db_folk_songs)
    |rewrite E3; apply (Hok db_stories)|].
  destruct (update_first (is_user u) (badge_update b) (user_progress w)).
  - by rewrite Hl.
  - rewrite Hl. apply Forall_app. split; [apply (Hok db_user_progress)|].
    constructor; [|constructor]. by rewrite lookup_insert_eq.
  - rewrite Hl. apply (Hok db_user_progress).
Qed.

Lemma run_stored_with_id env rs w : stored_with_id w -> stored_with_id (run env rs w).
Proof.
  apply (run_preserves env keeps_stored_with_id).
  - apply ids_bookkeeping.
  - intros c d _. apply ids_insert_one.
  - apply ids_get_user_progress.
  - apply ids_award_badge.
Qed.

Lemma stored_with_id_empty : stored_with_id empty_world.
Proof. intros []; constructor. Qed.

(** X15.  The stored records keep the identifier the store gave them: from
    the empty store, after any requests, every record of the four
    collections has an [_id], so the records handed out by the two listings
    carry it too. *)
Theorem stored_records_carry_the_object_id (env : Env) (rs : list request) (w : World) :
  stored_with_id w ->
  stored_with_id (run env rs w) /\
  exists documents songs,
    get_documents env (run env rs w) =
      (Return (VList (VDict <$> documents)), run env rs w) /\
    get_folk_songs env (run env rs w) =
      (Return (VList (VDict <$> songs)), run env rs w) /\
    Forall (fun d : doc => is_Some (d !! "_id")) (documents ++ songs).
Proof.
  intros Hw. pose proof (run_stored_with_id env rs w Hw) as Hok.
  split; [exact Hok|].
  exists (take 100 (cultural_documents (run env rs w))),
         (take 100 (folk_songs (run env rs w))).
  split; [apply get_documents_run|]. split.
  - unfold get_folk_songs. rewrite run_bind_case.
    unfold to_list. cbn. by rewrite filter_all_true.
  - apply Forall_app. split; apply Forall_take.
    + apply (Hok db_cultural_documents).
    + apply (Hok db_folk_songs).
Qed.

Lemma stored_records_carry_the_object_id_witness :
  stored_with_id
    (run sample_env [POST_ocr_upload manuscript "devanagari" "sanskrit";
                     GET_user_progress "u1"] empty_world).
Proof.
  refine (proj1 (stored_records_carry_the_object_id sample_env
                   [POST_ocr_upload manuscript "devanagari" "sanskrit";
                    GET_user_progress "u1"] empty_world _)).
  exact stored_with_id_empty.
Defined.

Lemma get_folk_songs_run env w :
  get_folk_songs env w = (Return (VList (VDict <$> take 100 (folk_songs w))), w).
Proof.
  unfold get_folk_songs. rewrite run_bind_case.
  unfold to_list. cbn. by rewrite filter_all_true.
Qed.

Lemma listing_not_jsonable (l : list doc) (d : doc) i :
  d ∈ l -> d !! "_id" = Some (VOid i) -> jsonable (VList (VDict <$> l)) = false.
Proof.
  intros Hin Hid. apply (jsonable_list_elem _ (VDict d)); [by apply list_elem_of_fmap_2|].
  by apply (jsonable_stored_record d i).
Qed.

(** X16.  The two listings hand out the first hundred stored records as
    they are and write nothing.  On an empty collection the answer is a
    200 with the empty list; as soon as one of the records handed out
    holds the store's [ObjectId] under [_id], as every inserted record
    does, the framework cannot encode the list and the request is answered
    500: after a successful song upload [GET /folk-songs] fails. *)
Theorem listings_fail_on_stored_records (env : Env) (w : World) :
  (cultural_documents w = [] ->
     serve (get_documents env) w = (Response 200 (VList []), w)) /\
  (folk_songs w = [] ->
     serve (get_folk_songs env) w = (Response 200 (VList []), w)) /\
  (forall d i,
     d ∈ take 100 (cultural_documents w) -> d !! "_id" = Some (VOid i) ->
     serve (get_documents env) w = (Response 500 (VStr "Internal Server Error"), w)) /\
  (forall d i,
     d ∈ take 100 (folk_songs w) -> d !! "_id" = Some (VOid i) ->
     serve (get_folk_songs env) w = (Response 500 (VStr "Internal Server Error"), w)) /\
  (forall file performer region language body w1,
     serve (upload_folk_song env file performer region language) w
       = (Response 200 body, w1) ->
     (length (folk_songs w) < 100)%nat ->
     serve (get_folk_songs env) w1 = (Response 500 (VStr "Internal Server Error"), w1)).
Proof.
  split; [|split; [|split; [|split]]].
  - intros Hempty. rewrite (serve_Return _ _ _ _ (get_documents_run env w)), Hempty.
    reflexivity.
  - intros Hempty. rewrite (serve_Return _ _ _ _ (get_folk_songs_run env w)), Hempty.
    reflexivity.
  - intros d i Hin Hid. rewrite (serve_Return _ _ _ _ (get_documents_run env w)).
    by rewrite (respond_not_jsonable _ (listing_not_jsonable _ d i Hin Hid)).
  - intros d i Hin Hid. rewrite (serve_Return _ _ _ _ (get_folk_songs_run env w)).
    by rewrite (respond_not_jsonable _ (listing_not_jsonable _ d i Hin Hid)).
  - intros file performer region language body w1 Hup Hlen.
    apply upload_folk_song_inv in Hup
      as (song & _ & _ & Hsongs & _ & _ & _ & _ & _ & Hoid).
    assert (Hin : song ∈ take 100 (folk_songs w1)).
    { rewrite Hsongs. apply list_elem_of_lookup. exists (length (folk_songs w)).
      rewrite lookup_take_lt by lia. apply list_lookup_middle. reflexivity. }
    rewrite (serve_Return _ _ _ _ (get_folk_songs_run env w1)).
    by rewrite (respond_not_jsonable _ (listing_not_jsonable _ song _ Hin Hoid)).
Qed.

Lemma listings_fail_on_stored_records_witness :
  serve (get_folk_songs sample_env)
    (serve (upload_folk_song sample_env lullaby "Asha" "Bengal" "bengali") empty_world).2
  = (Response 500 (VStr "Internal Server Error"),
     (serve (upload_folk_song sample_env lullaby "Asha" "Bengal" "bengali") empty_world).2).
Proof.
  refine (proj2 (proj2 (proj2 (proj2 (listings_fail_on_stored_records sample_env
                                         empty_world))))
            lullaby "Asha" "Bengal" "bengali" _ _
            (serve_200 (upload_folk_song sample_env lullaby "Asha" "Bengal" "bengali")
               empty_world _ _) _).
  - by_evaluation.
  - by_evaluation.
  - cbn. lia.
Defined.

(** ** Search: what the request does not influence *)

(** X17.  The [language] field of a search request is never read: two
    requests that agree on query, search type and limit get the same
    answer.  In semantic mode the query is not read either, beyond being
    echoed: the results depend on the limit alone. *)
Theorem search_ignores_language (env : Env) (w : World) (r1 r2 : SearchRequest.t) :
  SearchRequest.search_type r1 = SearchRequest.search_type r2 ->
  SearchRequest.limit r1 = SearchRequest.limit r2 ->
  (SearchRequest.query r1 = SearchRequest.query r2 ->
     search_content env r1 w = search_content env r2 w) /\
  (SearchRequest.search_type r1 = "semantic" ->
     search_results env r1 w = search_results env r2 w).
Proof.
  intros Htype Hlimit. split.
  - intros Hquery. unfold search_content, try_except, search_results.
    rewrite !run_bind_case. by rewrite Htype, Hlimit, Hquery.
  - intros Hsem. unfold search_results. rewrite <- Htype, Hsem, <- Hlimit.
    cbn [String.eqb Ascii.eqb Bool.eqb]. rewrite !run_bind_case.
    unfold encode. by destruct (embedding_model env).
Qed.

Lemma search_ignores_language_witness :
  search_results sample_env (semantic_request "lullabies of Bengal" 5) two_uploads =
  search_results sample_env (semantic_request "temple inscriptions" 5) two_uploads.
Proof.
  refine (proj2 (search_ignores_language sample_env two_uploads
                   (semantic_request "lullabies of Bengal" 5)
                   (semantic_request "temple inscriptions" 5) _ _) _); reflexivity.
Defined.

(** ** Story generation: the successful path *)

Lemma story_prompt_inv env request d w prompt w1 :
  story_prompt env request d w = (Return (Some prompt), w1) ->
  is_story_type (StoryRequest.story_type request) = true /\ w1 = w.
Proof.
  unfold story_prompt, is_story_type, bind, getitem, ret, raise.
  destruct (String.eqb (StoryRequest.story_type request) "summary").
  { destruct (d !! "title"); [|discriminate].
    destruct (d !! "language"); [|discriminate]. by intros [= _ <-]. }
  destruct (String.eqb (StoryRequest.story_type request) "interactive").
  { destruct (d !! "title"); [|discriminate]. by intros [= _ <-]. }
  destruct (String.eqb (StoryRequest.story_type request) "quiz").
  { destruct (d !! "title"); [|discriminate]. by intros [= _ <-]. }
  discriminate.
Qed.

Lemma Story_dict_fields (s : Story.t) :
  Story.dict s !! "_id" = None /\
  Story.dict s !! "id" = Some (VStr (Story.id s)) /\
  Story.dict s !! "title" = Some (VStr (Story.title s)) /\
  Story.dict s !! "content" = Some (VStr (Story.content s)) /\
  Story.dict s !! "source_document_id" = Some (opt_str (Story.source_document_id s)) /\
  Story.dict s !! "story_type" = Some (VStr (Story.story_type s)) /\
  Story.dict s !! "language" = Some (VStr (Story.language s)) /\
  Story.dict s !! "quiz_questions" =
    Some (match Story.quiz_questions s with Some l => VList (VDict <$> l) | None => VNone end).
Proof.
  destruct s as [[]].
  split; [reflexivity|]. split; [reflexivity|]. split; [reflexivity|].
  split; [reflexivity|]. split; [reflexivity|]. split; [reflexivity|].
  split; reflexivity.
Qed.

(** X18.  What a successful story generation has done: the source document
    was found by its [id]; the story type is one of the three; exactly one
    message went to the provider (openai, gpt-5); its reply is, unparsed,
    the [content] of the answer and of the one story appended to the
    store, which records the source document, the type and the target
    language and leaves [quiz_questions] empty also for a quiz; nothing
    else is stored. *)
Theorem generated_story_is_the_provider_reply (env : Env) (w w' : World)
    (request : StoryRequest.t) (body : value) :
  generate_story env request w = (Return body, w') ->
  exists d title prompt text story,
    first_match (fun d : doc =>
                   on_string (String.eqb (StoryRequest.document_id request)) (d !! "id"))
      (cultural_documents w) = Some d /\
    d !! "title" = Some title /\
    is_story_type (StoryRequest.story_type request) = true /\
    provider_reply env (length (llm_log w)) "openai" "gpt-5" prompt = inr text /\
    llm_log w' = llm_log w ++ [("openai", "gpt-5", prompt)] /\
    body = VDict (dict
      [("story_id", VStr (uuid_of env (S (uuid_count w))));
       ("content", VStr text);
       ("story_type", VStr (StoryRequest.story_type request));
       ("source_document", title)]) /\
    stories w' = stories w ++ [story] /\
    story !! "id" = Some (VStr (uuid_of env (S (uuid_count w)))) /\
    story !! "content" = Some (VStr text) /\
    story !! "source_document_id" = Some (VStr (StoryRequest.document_id request)) /\
    story !! "story_type" = Some (VStr (StoryRequest.story_type request)) /\
    story !! "language" = Some (VStr (StoryRequest.target_language request)) /\
    story !! "title" =
      Some (VStr (py_str env title +:+ " - " +:+
                  str_title (StoryRequest.story_type request))) /\
    story !! "quiz_questions" = Some VNone /\
    cultural_documents w' = cultural_documents w /\
    folk_songs w' = folk_songs w /\
    user_progress w' = user_progress w.
Proof.
  unfold generate_story, try_except.
  destruct (generate_story_body env request w) as [[v|e] w0] eqn:Hbody; [|discriminate].
  intros [= <- <-]. revert Hbody. unfold generate_story_body.
  rewrite run_bind_case, find_one_eq. cbn [coll_get].
  destruct (first_match _ (cultural_documents w)) as [d|] eqn:Hfound; [|discriminate].
  unfold truthy. destruct (size d =? 0)%nat; [discriminate|].
  unfold generate_story_from. rewrite run_bind_case.
  unfold get_llm_client at 1.
  destruct (or_default (EMERGENT_LLM_KEY env) EmptyString) as [|a key] eqn:Hkey;
    [discriminate|].
  rewrite run_bind_case. cbn [uuid4 ret].
  rewrite run_bind_case.
  destruct (story_prompt env request d _) as [[[prompt|]|e] w1] eqn:Hprompt;
    [|discriminate|discriminate].
  apply story_prompt_inv in Hprompt as [Htype ->].
  rewrite run_bind_case. cbn [load_local ret].
  rewrite run_bind_case. unfold send_message at 1.
  unfold bind at 1, gets, modify. cbn [fst snd llm_log chat_provider chat_model set_llm_log].
  unfold bind at 1.
  destruct (provider_reply env (length (llm_log w)) "openai" "gpt-5" prompt)
    as [e|text] eqn:Hreply; [discriminate|].
  cbn [ret]. rewrite run_bind_case. unfold getitem at 1.
  destruct (d !! "title") as [title|] eqn:Htitle; [|discriminate].
  cbn [ret].
  unfold bind, new_Story, new_base, uuid4, utcnow, ret, insert_one, with_object_id,
    modify, getitem.
  cbn -[Story.dict lookup insert String.append str_title py_str].
  rewrite (proj1 (Story_dict_fields _)), Htitle.
  cbn -[Story.dict lookup insert String.append str_title py_str].
  intros [= <- <-].
  eexists d, title, prompt, text, _.
  split; [reflexivity|]. split; [exact Htitle|]. split; [exact Htype|].
  split; [exact Hreply|]. split; [reflexivity|]. split; [reflexivity|].
  split; [reflexivity|].
  cbn -[Story.dict lookup insert String.append str_title py_str].
  rewrite !lookup_insert_ne by done.
  split; [reflexivity|]. split; [reflexivity|]. split; [reflexivity|].
  split; [reflexivity|]. split; [reflexivity|]. split; [reflexivity|].
  split; [reflexivity|]. split; [reflexivity|]. split; reflexivity.
Qed.

Lemma generated_story_is_the_provider_reply_witness :
  exists d title prompt text story,
    first_match (fun d : doc =>
                   on_string (String.eqb (StoryRequest.document_id summary_request))
                     (d !! "id"))
      (cultural_documents one_upload) = Some d /\
    d !! "title" = Some title /\
    is_story_type (StoryRequest.story_type summary_request) = true /\
    provider_reply sample_env (length (llm_log one_upload)) "openai" "gpt-5" prompt
      = inr text /\
    llm_log (generate_story sample_env summary_request one_upload).2
      = llm_log one_upload ++ [("openai", "gpt-5", prompt)] /\
    stories (generate_story sample_env summary_request one_upload).2
      = stories one_upload ++ [story] /\
    story !! "content" = Some (VStr text).
Proof.
  destruct (generated_story_is_the_provider_reply sample_env one_upload
              (generate_story sample_env summary_request one_upload).2
              summary_request
              (returned VNone (generate_story sample_env summary_request one_upload))
              (returned_run (generate_story sample_env summary_request) VNone one_upload
                 ltac:(by_evaluation)))
    as (d & title & prompt & text & story & Hd & Ht & Hty & Hr & Hl & _ & Hs & _ & Hc & _).
  exists d, title, prompt, text, story.
  split; [exact Hd|]. split; [exact Ht|]. split; [exact Hty|]. split; [exact Hr|].
  split; [exact Hl|]. split; [exact Hs | exact Hc].
Defined.

(** ** Uploads: what is not read *)

(** X19.  The bytes of an upload enter neither the answer nor the stored
    record: two files of the same name get the same answer and leave the
    same records behind, for [/ocr/upload] and for [/speech/upload].  The
    bytes are copied to the staged file only; the extracted text and the
    transcription are built from the file name. *)
Theorem upload_answer_ignores_file_content (env : Env) (w : World) (f1 f2 : UploadFile) :
  filename f1 = filename f2 ->
  (forall script_type language,
      (serve (upload_document_ocr env f1 script_type language) w).1 =
      (serve (upload_document_ocr env f2 script_type language) w).1 /\
      same_collections (serve (upload_document_ocr env f1 script_type language) w).2
                       (serve (upload_document_ocr env f2 script_type language) w).2) /\
  (forall performer region language,
      (serve (upload_folk_song env f1 performer region language) w).1 =
      (serve (upload_folk_song env f2 performer region language) w).1 /\
      same_collections (serve (upload_folk_song env f1 performer region language) w).2
                       (serve (upload_folk_song env f2 performer region language) w).2).
Proof.
  destruct f1 as [name bytes1], f2 as [name2 bytes2]. cbn [filename]. intros <-.
  split.
  - intros script_type language.
    unfold serve, upload_document_ocr, try_except.
    rewrite !run_bind_case, !save_upload_file_run.
    change (staged_path env {| filename := name; file_bytes := bytes2 |} w)
      with (staged_path env {| filename := name; file_bytes := bytes1 |} w).
    destruct (fs_creatable env _); [|split; [reflexivity | by intros []]].
    unfold encode. destruct (embedding_model env) as [model|].
    + unfold bind, modify, ret, new_CulturalDocument, new_base, uuid4, utcnow, insert_one,
        with_object_id, os_remove, gets, modify, bind.
      cbn -[CulturalDocument.dict lookup insert delete String.append staged_path].
      repeat match goal with
             | |- context [CulturalDocument.dict ?x !! "_id"] =>
                 rewrite (proj1 (CulturalDocument_dict_fresh x))
             end.
      cbn -[CulturalDocument.dict lookup insert delete String.append staged_path].
      rewrite !lookup_insert_eq.
      cbn -[CulturalDocument.dict lookup insert delete String.append staged_path].
      split; [reflexivity | by intros []].
    + unfold bind, new_CulturalDocument, new_base, uuid4, utcnow, ret, raise.
      cbn -[lookup insert String.append staged_path].
      split; [reflexivity | by intros []].
  - intros performer region language.
    unfold serve, upload_folk_song, try_except.
    rewrite !run_bind_case, !save_upload_file_run.
    change (staged_path env {| filename := name; file_bytes := bytes2 |} w)
      with (staged_path env {| filename := name; file_bytes := bytes1 |} w).
    destruct (fs_creatable env _); [|split; [reflexivity | by intros []]].
    unfold encode. destruct (embedding_model env) as [model|].
    + unfold bind, modify, ret, new_FolkSong, new_base, uuid4, utcnow, insert_one,
        with_object_id, gets, modify, bind.
      cbn -[FolkSong.dict lookup insert delete String.append staged_path].
      repeat match goal with
             | |- context [FolkSong.dict ?x !! "_id"] =>
                 rewrite (proj1 (FolkSong_dict_fresh x))
             end.
      cbn -[FolkSong.dict lookup insert delete String.append staged_path].
      split; [reflexivity | by intros []].
    + unfold bind, new_FolkSong, new_base, uuid4, utcnow, ret, raise.
      cbn -[lookup insert String.append staged_path].
      split; [reflexivity | by intros []].
Qed.

Lemma upload_answer_ignores_file_content_witness :
  (serve (upload_document_ocr sample_env manuscript "devanagari" "sanskrit") empty_world).1 =
  (serve (upload_document_ocr sample_env
            {| filename := "abc"; file_bytes := "another scan" |}
            "devanagari" "sanskrit") empty_world).1.
Proof.
  refine (proj1 (proj1 (upload_answer_ignores_file_content sample_env empty_world manuscript
                          {| filename := "abc"; file_bytes := "another scan" |} _)
                   "devanagari" "sanskrit")).
  reflexivity.
Defined.

(** ** Messages to the provider *)

Lemma sends_le {A} n n' (m : M A) : (n <= n')%nat -> sends n m -> sends n' m.
Proof.
  intros Hle H w. destruct (H w) as (msgs & E & Hlen). exists msgs. split; [exact E | lia].
Qed.

Lemma sends_quiet {A} (m : M A) : (forall w, llm_log (m w).2 = llm_log w) -> sends 0 m.
Proof. intros H w. exists []. rewrite app_nil_r. split; [apply H | done]. Qed.

Lemma sends_ret {A} (a : A) : sends 0 (ret a).
Proof. by apply sends_quiet. Qed.

Lemma sends_raise {A} e : sends 0 (@raise A e).
Proof. by apply sends_quiet. Qed.

Lemma sends_gets {A} (f : World -> A) : sends 0 (gets f).
Proof. by apply sends_quiet. Qed.

Lemma sends_bind {A B} n1 n2 (m : M A) (k : A -> M B) :
  sends n1 m -> (forall a, sends n2 (k a)) -> sends (n1 + n2) (bind m k).
Proof.
  intros Hm Hk w. unfold bind. destruct (Hm w) as (msgs1 & E1 & H1).
  destruct (m w) as [[a|e] w1]; cbn [snd] in *.
  - destruct (Hk a w1) as (msgs2 & E2 & H2). exists (msgs1 ++ msgs2).
    rewrite E2, E1, length_app, <- app_assoc. split; [done | lia].
  - exists msgs1. split; [exact E1 | lia].
Qed.

Lemma sends_try_except {A} n1 n2 (m : M A) (h : exn -> M A) :
  sends n1 m -> (forall e, sends n2 (h e)) -> sends (n1 + n2) (try_except m h).
Proof.
  intros Hm Hh w. unfold try_except. destruct (Hm w) as (msgs1 & E1 & H1).
  destruct (m w) as [[a|e] w1]; cbn [snd] in *.
  - exists msgs1. split; [exact E1 | lia].
  - destruct (Hh e w1) as (msgs2 & E2 & H2). exists (msgs1 ++ msgs2).
    rewrite E2, E1, length_app, <- app_assoc. split; [done | lia].
Qed.

Lemma sends_bind_quiet {A B} (m : M A) (k : A -> M B) :
  sends 0 m -> (forall a, sends 0 (k a)) -> sends 0 (bind m k).
Proof. apply (sends_bind 0 0). Qed.

Lemma sends_try_except_quiet {A} (m : M A) (h : exn -> M A) :
  sends 0 m -> (forall e, sends 0 (h e)) -> sends 0 (try_except m h).
Proof. apply (sends_try_except 0 0). Qed.

Lemma sends_for_each {A B} (f : A -> M B) (l : list A) :
  (forall a, sends 0 (f a)) -> sends 0 (for_each f l).
Proof.
  intros Hf. induction l as [|a l IH]; [apply sends_ret|].
  cbn [for_each]. apply sends_bind_quiet; [apply Hf|]. intros b.
  apply sends_bind_quiet; [apply IH|]. intros bs. apply sends_ret.
Qed.

Lemma sends_modify (f : World -> World) :
  (forall w, llm_log (f w) = llm_log w) -> sends 0 (modify f).
Proof. intros H. by apply sends_quiet. Qed.

Lemma sends_uuid4 env : sends 0 (uuid4 env).
Proof. by apply sends_quiet. Qed.

Lemma sends_utcnow env : sends 0 (utcnow env).
Proof. by apply sends_quiet. Qed.

Lemma sends_with_object_id d : sends 0 (with_object_id d).
Proof. apply sends_quiet. intros w. unfold with_object_id. by destruct (d !! "_id"). Qed.

(** Structural steps for computations that send nothing. *)
Ltac quiet_step :=
  first
    [ apply sends_ret
    | apply sends_raise
    | apply sends_gets
    | apply sends_uuid4
    | apply sends_utcnow
    | apply sends_with_object_id
    | apply sends_modify; (intros ?; reflexivity)
    | apply sends_modify; (intros ?; unfold coll_set; reflexivity)
    | apply sends_bind_quiet; [| intros ?]
    | apply sends_try_except_quiet; [| intros ?]
    | apply sends_for_each; intros ?
    | match goal with
      | |- sends 0 (match ?x with _ => _ end) => destruct x
      | |- sends 0 (if ?b then _ else _) => destruct b
      end ].

Lemma sends_save_upload_file env f : sends 0 (save_upload_file env f).
Proof. unfold save_upload_file. cbv zeta. repeat quiet_step. Qed.

Lemma sends_os_remove path : sends 0 (os_remove path).
Proof. unfold os_remove. repeat quiet_step. Qed.

Lemma sends_encode env text : sends 0 (encode env text).
Proof. unfold encode. repeat quiet_step. Qed.

Lemma sends_get_llm_client env provider model : sends 0 (get_llm_client env provider model).
Proof. unfold get_llm_client. repeat quiet_step. Qed.

Lemma sends_find_one env c q : sends 0 (find_one env c q).
Proof. unfold find_one, operation_failure. repeat quiet_step. Qed.

Lemma sends_to_list env len cur : sends 0 (to_list env len cur).
Proof. unfold to_list, operation_failure. repeat quiet_step. Qed.

Lemma sends_getitem d k : sends 0 (getitem d k).
Proof. unfold getitem. repeat quiet_step. Qed.

Lemma sends_loads env s : sends 0 (loads env s).
Proof. unfold loads. repeat quiet_step. Qed.

Lemma sends_new_base env : sends 0 (new_base env).
Proof. unfold new_base. repeat quiet_step. Qed.

Lemma sends_insert_one c d : sends 0 (insert_one c d).
Proof. unfold insert_one. repeat quiet_step. Qed.

Lemma sends_story_prompt env request d : sends 0 (story_prompt env request d).
Proof.
  unfold story_prompt. cbv zeta. repeat first [apply sends_getitem | quiet_step].
Qed.

Lemma sends_search_results env request : sends 0 (search_results env request).
Proof.
  unfold search_results, document_item, folk_song_item, keyword_item, truncated_content.
  cbv zeta.
  repeat first [apply sends_encode | apply sends_to_list | apply sends_getitem | quiet_step].
Qed.

Lemma sends_update_one_upsert env c q u : sends 0 (update_one_upsert env c q u).
Proof.
  unfold update_one_upsert, operation_failure, write_error.
  repeat first [apply sends_insert_one | quiet_step].
Qed.

Lemma sends_send_message env chat prompt : sends 1 (send_message env chat prompt).
Proof.
  intros w. exists [(chat_provider chat, chat_model chat, prompt)].
  split; [|done]. unfold send_message, bind, gets, modify. cbn.
  by destruct (provider_reply env _ _ _ _).
Qed.

Ltac quiet :=
  repeat first
    [ apply sends_save_upload_file | apply sends_os_remove | apply sends_encode
    | apply sends_get_llm_client | apply sends_find_one | apply sends_to_list
    | apply sends_getitem | apply sends_loads | apply sends_new_base
    | apply sends_insert_one | apply sends_story_prompt | apply sends_search_results
    | apply sends_update_one_upsert | quiet_step ].

Lemma sends_generate_story_from env request d : sends 1 (generate_story_from env request d).
Proof.
  unfold generate_story_from, new_Story, load_local. cbv zeta.
  apply (sends_bind 0 1); [apply sends_get_llm_client|]. intros chat.
  apply (sends_bind 0 1); [apply sends_story_prompt|]. intros prompt.
  apply (sends_bind 0 1); [destruct prompt; quiet|]. intros user_message.
  apply (sends_bind 1 0); [apply sends_send_message|]. intros response. quiet.
Qed.

Lemma sends_handler env (r : request) :
  sends (if calls_provider r then 1 else 0) (handler env r).
Proof.
  destruct r; cbn [handler calls_provider].
  - unfold root. quiet.
  - unfold health_check. quiet.
  - unfold upload_document_ocr, new_CulturalDocument. cbv zeta. quiet.
  - unfold restore_text. apply (sends_try_except 1 0); [|intros e; quiet].
    apply (sends_bind 0 1); [apply sends_get_llm_client|]. intros chat.
    apply (sends_bind 1 0); [apply sends_send_message|]. intros response. quiet.
  - unfold translate_text. apply (sends_try_except 1 0); [|intros e; quiet].
    apply (sends_bind 0 1); [apply sends_get_llm_client|]. intros chat.
    apply (sends_bind 1 0); [apply sends_send_message|]. intros response. quiet.
  - unfold upload_folk_song, new_FolkSong. cbv zeta. quiet.
  - unfold generate_story, generate_story_body.
    apply (sends_try_except 1 0); [|intros e; quiet].
    apply (sends_bind 0 1); [apply sends_find_one|]. intros found.
    destruct (truthy found); [apply sends_generate_story_from|].
    apply (sends_le 0); [lia | apply sends_raise].
  - unfold search_content. quiet.
  - unfold get_user_progress, new_UserProgress. quiet.
  - unfold award_badge. quiet.
  - unfold get_documents. quiet.
  - unfold get_folk_songs. quiet.
  - unfold vr_preview_placeholder. quiet.
Qed.

(** X20.  A request sends at most one message to the provider, and only
    restoration, translation and story generation send any: there is no
    retry, and uploads, search, listings and the ledger never call it.
    Over a sequence of requests the log only grows, by at most one message
    per request of those three kinds. *)
Theorem at_most_one_message_per_request (env : Env) (rs : list request) (w : World) :
  (forall r, exists msgs,
      llm_log (serve (handler env r) w).2 = llm_log w ++ msgs /\
      (length msgs <= if calls_provider r then 1 else 0)%nat) /\
  exists msgs,
    llm_log (run env rs w) = llm_log w ++ msgs /\
    (length msgs <= length (filter (fun r => calls_provider r = true) rs))%nat.
Proof.
  split.
  - intros r. rewrite serve_snd. apply sends_handler.
  - revert w. induction rs as [|r rs IH]; intros w.
    + exists []. by rewrite app_nil_r.
    + unfold run in *. cbn [foldl]. rewrite serve_snd.
      destruct (sends_handler env r w) as (msgs1 & E1 & H1).
      destruct (IH (handler env r w).2) as (msgs2 & E2 & H2).
      exists (msgs1 ++ msgs2). rewrite E2, E1, <- app_assoc. split; [done|].
      rewrite length_app, filter_cons.
      destruct (calls_provider r); [rewrite decide_True by done | rewrite decide_False by done];
        cbn [length]; lia.
Qed.
